(** * port-monitor: the process scanner and the interactive session

    A shallow embedding of [scanner/scanner.go] (package [scanner]) and of
    [main.go] (package [main], the bubbletea model with search and kill
    confirmation), followed by the properties of the snapshot collector, the
    terminator, the view derivation and the input-routing state machine.

    Conventions.
    - Go's [int], [int32], [uint32] and [uint64] are [Z] or [N]; none of the
      arithmetic below can leave the machine range on the inputs considered,
      so no wrap-around is written.
    - A Go [error] is its message.  A call that returns [(v, err)] returns a
      [result].
    - A run-time panic (a slice expression out of range) is [None].
    - [float64] is the kernel's binary64 [float].
    - Functions of the Go standard library and of the bubbles/bubbletea
      widgets are not part of the repository; the ones whose result the
      program inspects are modelled in [GoLib] and [table], the others are
      the fields of [main.Widgets]. *)

From Stdlib Require Import ZArith NArith List String Ascii Bool Lia.
From Stdlib Require Import DecimalString DecimalN DecimalZ.
From Stdlib Require Import Sorting.Sorted Sorting.Permutation.
From Stdlib Require Import Floats.PrimFloat Floats.SpecFloat Floats.FloatOps.
From Stdlib Require Import Floats.FloatAxioms.
From stdpp Require Import base option list sorting gmap sets.

Import ListNotations.
Local Open Scope Z_scope.

(** ** Results of fallible calls *)

Definition error := string.

Inductive result (A : Type) : Type :=
| Ok (v : A)
| Err (e : error).
Arguments Ok {A} v.
Arguments Err {A} e.

(** ** The Go standard library, as far as the program uses it *)

Module GoLib.

Local Open Scope string_scope.

(** [len(s)] for a string: its number of bytes. *)
Definition len (s : string) : Z := Z.of_nat (String.length s).

(** [fmt.Sprintf("%d", n)] for an unsigned and for a signed integer. *)
Definition fmt_u (n : N) : string := NilEmpty.string_of_uint (N.to_uint n).
Definition fmt_d (z : Z) : string := NilEmpty.string_of_int (Z.to_int z).

(** [fmt.Sscanf(s, "%d", &v)] with the error dropped and [v] starting at
    zero, on the strings that ["%d"] prints. *)
Definition Sscanf_d (s : string) : Z :=
  match NilEmpty.int_of_string s with
  | Some d => Z.of_int d
  | None => 0%Z
  end.

(** [strings.ToLower].  On a string all of whose bytes are below 128 the
    library takes its ASCII path: the capitals ['A'] to ['Z'] are folded byte
    by byte and every other byte is kept.  That fold is the model.  On a
    string with a byte of 128 or more the library decodes UTF-8 and maps the
    runes by the Unicode tables, which the fold does not follow.  The key
    tests compare the result with ["y"], ["n"] and ["esc"], which only
    ASCII strings are mapped to; the statements that spell out which names
    a search text matches are made for ASCII strings. *)
Definition lower_ascii (c : ascii) : ascii :=
  let n := nat_of_ascii c in
  if ((65 <=? n) && (n <=? 90))%nat then ascii_of_nat (n + 32) else c.

Fixpoint ToLower (s : string) : string :=
  match s with
  | EmptyString => EmptyString
  | String c s' => String (lower_ascii c) (ToLower s')
  end.

(** [strings.HasPrefix], [strings.Contains], [strings.HasSuffix]. *)
Definition HasPrefix (s pre : string) : bool := String.prefix pre s.

Fixpoint Contains (s sub : string) : bool :=
  String.prefix sub s ||
  match s with
  | EmptyString => false
  | String _ s' => Contains s' sub
  end.

Definition string_rev (s : string) : string :=
  string_of_list_ascii (List.rev (list_ascii_of_string s)).

Definition HasSuffix (s suf : string) : bool :=
  String.prefix (string_rev suf) (string_rev s).

(** [strings.Join]. *)
Definition Join (l : list string) (sep : string) : string :=
  String.concat sep l.

(** The slice expression [s[:n]]: panics unless [0 <= n <= len(s)]. *)
Definition slice_to (s : string) (n : Z) : option string :=
  if ((n <? 0) || (len s <? n))%Z then None
  else Some (String.substring 0 (Z.to_nat n) s).

(** [filepath.Base] on a Unix path. *)
Fixpoint drop_slashes (l : list ascii) : list ascii :=
  match l with
  | "/"%char :: l' => drop_slashes l'
  | _ => l
  end.

Fixpoint take_element (l : list ascii) : list ascii :=
  match l with
  | [] => []
  | c :: l' => if Ascii.eqb c "/" then [] else c :: take_element l'
  end.

Definition Base (path : string) : string :=
  if String.eqb path "" then "."
  else
    let r := drop_slashes (List.rev (list_ascii_of_string path)) in
    let e := string_of_list_ascii (List.rev (take_element r)) in
    if String.eqb e "" then "/" else e.

(** [sort.Slice(data, less)].  The library sorts a slice of at most twelve
    elements by insertion, moving each element toward the front while
    [less] puts it before its left neighbour; [insert_back] takes the sorted
    part back to front.  Above twelve elements the library partitions the
    slice first (pattern-defeating quicksort) and is not stable, so there the
    place of records that compare equal may differ from the one computed
    here.  The statements about slices of any length rest on what the two
    procedures share: the result is a permutation of the input, in the
    order of [less]. *)
Fixpoint insert_back {A : Type} (less : A -> A -> bool) (x : A)
    (sorted_rev : list A) : list A :=
  match sorted_rev with
  | [] => [x]
  | y :: rest =>
      if less x y then y :: insert_back less x rest
      else x :: sorted_rev
  end.

Definition sort_Slice {A : Type} (less : A -> A -> bool) (data : list A)
    : list A :=
  List.rev (fold_left (fun acc x => insert_back less x acc) data []).

(** [int(f)] for a finite [float64]: truncation toward zero. *)
Definition int_of_float (f : float) : Z :=
  match Prim2SF f with
  | S754_finite s m e =>
      let v := (if 0 <=? e then Z.pos m * 2 ^ e
                else Z.pos m / 2 ^ (- e))%Z in
      if s then (- v)%Z else v
  | _ => 0%Z
  end.

(** [float64(n)]: the nearest binary64 value. *)
Definition float_of_int (z : Z) : float :=
  SF2Prim (binary_normalize prec emax z 0 false).

End GoLib.

(** ** gopsutil: what the operating system answers during one scan *)

Module gopsutil.

Record MemoryInfoStat := { RSS : N }.

(** A process handle; each field is the outcome of the accessor of the
    same name. *)
Record Process := {
  Pid : Z;
  Name : result string;
  Username : result string;
  Cwd : result string;
  Cmdline : result string;
  Percent : result float;
  MemoryInfo : result MemoryInfoStat
}.

(** One entry of [net.Connections]; [Port] is [Laddr.Port]. *)
Record ConnectionStat := {
  Port : N;
  Status : string;
  ConnPid : Z
}.

(** The three enumerations [ScanProcesses] performs. *)
Record OS := {
  user_Current : result string;
  process_Processes : result (list Process);
  net_Connections : result (list ConnectionStat)
}.

End gopsutil.

(** ** Package scanner *)

Module scanner.

Local Open Scope string_scope.
Local Open Scope list_scope.

Inductive ProcessType := SystemProcess | UserProcess.

Definition ProcessType_eqb (a b : ProcessType) : bool :=
  match a, b with
  | SystemProcess, SystemProcess | UserProcess, UserProcess => true
  | _, _ => false
  end.

Record Connection := {
  Port : N;
  Status : string
}.

Record ProcessInfo := {
  PID : Z;
  Name : string;
  User : string;
  Type_ : ProcessType;
  Connections : list Connection;
  Cwd : string;
  Command : string;
  AppType : string;
  IsSelected : bool;
  CPUPercent : float;
  MemoryUsage : N
}.

(** The body of the loop over [connections]:
    [connMap[conn.Pid] = append(connMap[conn.Pid], c)]. *)
Definition addConn (connMap : gmap Z (list Connection))
    (conn : gopsutil.ConnectionStat) : gmap Z (list Connection) :=
  let c := {| Port := gopsutil.Port conn; Status := gopsutil.Status conn |} in
  let pid := gopsutil.ConnPid conn in
  <[ pid := default [] (connMap !! pid) ++ [c] ]> connMap.

Definition buildConnMap (r : result (list gopsutil.ConnectionStat))
    : gmap Z (list Connection) :=
  match r with
  | Ok connections => fold_left addConn connections ∅
  | Err _ => ∅
  end.

Definition appTypeOf (name cwd cmdline : string) : string :=
  if GoLib.HasPrefix cwd "/Applications" || GoLib.HasSuffix name ".app"
  then "GUI App"
  else if GoLib.Contains cmdline " go run "
          || GoLib.HasPrefix (GoLib.Base cwd) "apps"
  then "Dev Tool"
  else "Binary".

(** One iteration of the loop over [procs]: [None] is the [continue]. *)
Definition scanOne (currentUser : string)
    (connMap : gmap Z (list Connection)) (p : gopsutil.Process)
    : option ProcessInfo :=
  match gopsutil.Name p with
  | Err _ => None
  | Ok name =>
      let username :=
        match gopsutil.Username p with Ok u => u | Err _ => "unknown" end in
      let pType :=
        if String.eqb username currentUser then UserProcess
        else SystemProcess in
      let cwd := match gopsutil.Cwd p with Ok d => d | Err _ => "" end in
      let cmdline :=
        match gopsutil.Cmdline p with Ok c => c | Err _ => "" end in
      let conns := default [] (connMap !! gopsutil.Pid p) in
      let cpuPct :=
        match gopsutil.Percent p with Ok f => f | Err _ => 0%float end in
      let memUsage :=
        match gopsutil.MemoryInfo p with
        | Ok mi => gopsutil.RSS mi
        | Err _ => 0%N
        end in
      Some {| PID := gopsutil.Pid p;
              Name := name;
              User := username;
              Type_ := pType;
              Connections := conns;
              Cwd := cwd;
              Command := cmdline;
              AppType := appTypeOf name cwd cmdline;
              IsSelected := false;
              CPUPercent := cpuPct;
              MemoryUsage := memUsage |}
  end.

Fixpoint scanLoop (currentUser : string)
    (connMap : gmap Z (list Connection)) (procs : list gopsutil.Process)
    : list ProcessInfo :=
  match procs with
  | [] => []
  | p :: rest =>
      match scanOne currentUser connMap p with
      | Some info => info :: scanLoop currentUser connMap rest
      | None => scanLoop currentUser connMap rest
      end
  end.

Definition ScanProcesses (os : gopsutil.OS) : result (list ProcessInfo) :=
  match gopsutil.user_Current os with
  | Err e => Err (String.append "failed to get current user: " e)
  | Ok currentUser =>
      match gopsutil.process_Processes os with
      | Err e => Err (String.append "failed to list processes: " e)
      | Ok procs =>
          let connMap := buildConnMap (gopsutil.net_Connections os) in
          Ok (scanLoop currentUser connMap procs)
      end
  end.

(** [KillProcess] changes the operating system; its two calls are the
    fields of [Killer], over any state [S] of the system. *)
Record Killer (S : Type) := {
  NewProcess : Z -> S -> result Z;
  Kill : Z -> S -> option error * S
}.
Arguments NewProcess {S} _ _ _.
Arguments Kill {S} _ _ _.

Definition KillProcess {S : Type} (K : Killer S) (pid : Z) (s : S)
    : option error * S :=
  match NewProcess K pid s with
  | Err e => (Some e, s)
  | Ok p => Kill K p s
  end.

End scanner.

(** ** bubbles: the parts of the widgets the program reads and writes *)

Module table.

Record Column := { Title : string; Width : Z }.

(** A [table.Row] of this program: the seven cells [updateTable] builds,
    in column order. *)
Record Row := {
  cell_check : string;
  cell_pid : string;
  cell_name : string;
  cell_ports : string;
  cell_cpu : string;
  cell_mem : string;
  cell_type : string
}.

Record Model := {
  cols : list Column;
  rows : list Row;
  cursor : Z;
  viewHeight : Z;
  viewWidth : Z;
  focus : bool
}.

Definition Columns (t : Model) : list Column := cols t.
Definition Cursor (t : Model) : Z := cursor t.

Definition SetColumns (c : list Column) (t : Model) : Model :=
  {| cols := c; rows := rows t; cursor := cursor t;
     viewHeight := viewHeight t; viewWidth := viewWidth t; focus := focus t |}.

Definition SetRows (r : list Row) (t : Model) : Model :=
  {| cols := cols t; rows := r; cursor := cursor t;
     viewHeight := viewHeight t; viewWidth := viewWidth t; focus := focus t |}.

Definition clamp (v low high : Z) : Z := Z.min (Z.max v low) high.

Definition SetCursor (n : Z) (t : Model) : Model :=
  {| cols := cols t; rows := rows t;
     cursor := clamp n 0 (Z.of_nat (length (rows t)) - 1);
     viewHeight := viewHeight t; viewWidth := viewWidth t; focus := focus t |}.

Definition SetHeight (h : Z) (t : Model) : Model :=
  {| cols := cols t; rows := rows t; cursor := cursor t;
     viewHeight := h; viewWidth := viewWidth t; focus := focus t |}.

Definition SetWidth (w : Z) (t : Model) : Model :=
  {| cols := cols t; rows := rows t; cursor := cursor t;
     viewHeight := viewHeight t; viewWidth := w; focus := focus t |}.

Definition SetFocus (b : bool) (t : Model) : Model :=
  {| cols := cols t; rows := rows t; cursor := cursor t;
     viewHeight := viewHeight t; viewWidth := viewWidth t; focus := b |}.

(** The table's own [Update] handles the navigation keys: it moves the
    cursor and changes nothing else.  [Moved c] is its result when the
    cursor ends at [c]. *)
Definition Moved (c : Z) (t : Model) : Model :=
  {| cols := cols t; rows := rows t; cursor := c;
     viewHeight := viewHeight t; viewWidth := viewWidth t; focus := focus t |}.

(** [nil] when the cursor is outside the rows. *)
Definition SelectedRow (t : Model) : option Row :=
  if (cursor t <? 0) || (Z.of_nat (length (rows t)) <=? cursor t) then None
  else rows t !! Z.to_nat (cursor t).

End table.

Module textinput.
Record Model := { Value : string; focus : bool }.
Definition SetFocus (b : bool) (t : Model) : Model :=
  {| Value := Value t; focus := b |}.
End textinput.

Module spinner.
Record Model := { frame : Z }.
End spinner.

(** ** Package main: messages, commands and the model *)

Module main.

Import scanner.
Local Open Scope string_scope.
Local Open Scope list_scope.
Local Open Scope Z_scope.

Definition SortPID : Z := 0.
Definition SortName : Z := 1.
Definition SortPorts : Z := 2.
Definition SortCPU : Z := 3.
Definition SortMem : Z := 4.

(** The messages [Update] receives.  A [KeyMsg] carries [msg.String()];
    [OtherMsg] stands for the messages of the widgets (blink, spinner
    tick). *)
Inductive Msg :=
| KeyMsg (key : string)
| WindowSizeMsg (Width Height : Z)
| scanStartMsg
| scanMsg (procs : list ProcessInfo)
| tickMsg
| killResultMsg (count : Z) (err : option error)
| notificationTimeoutMsg
| errMsg (e : error)
| OtherMsg.

(** The commands [Update] hands back to the runtime.  A [tea.Cmd] is the
    list of the elementary commands it runs, [nil] the empty list and
    [tea.Batch] the concatenation.  [killCmd pids] is the closure
    [killPending] returns; [WidgetCmd] is whatever a widget's own [Update]
    returned. *)
Inductive Action :=
| Quit
| scanStart
| scanRun
| tick
| waitNotification
| Blink
| SpinnerTick
| WidgetCmd
| killCmd (pids : list Z).

Definition Cmd := list Action.
Definition Batch (cmds : list Cmd) : Cmd := List.concat cmds.
Definition scanProcessesCmd : Cmd := Batch [[scanStart]; [scanRun]].
Definition tickCmd : Cmd := [tick].
Definition waitNotificationCmd : Cmd := [waitNotification].

(** The widgets' own [Update] methods and the float verb of [fmt]:
    where the table's [Update] leaves the cursor, what the text input and
    the spinner become, and [fmt.Sprintf("%.1f", f)]. *)
Record Widgets := {
  table_Update : Msg -> table.Model -> Z;
  textinput_Update : Msg -> textinput.Model -> textinput.Model;
  spinner_Update : Msg -> spinner.Model -> spinner.Model;
  fmt_f1 : float -> string
}.

Record model := mkModel {
  table : table.Model;
  processes : list scanner.ProcessInfo;
  selectedPids : gset Z;
  activeTab : Z;
  err : option error;
  width : Z;
  height : Z;
  loading : bool;
  spinner : spinner.Model;
  filterPorts : bool;
  sortBy : Z;
  sortDesc : bool;
  textInput : textinput.Model;
  searching : bool;
  confirming : bool;
  pendingPids : list Z;
  notification : string
}.

(** Field assignments [m.f = v]. *)
Definition set_table (v : table.Model) (m : model) : model :=
  mkModel v (processes m) (selectedPids m) (activeTab m) (err m)
    (width m) (height m) (loading m) (spinner m) (filterPorts m)
    (sortBy m) (sortDesc m) (textInput m) (searching m) (confirming m)
    (pendingPids m) (notification m).
Definition set_processes (v : list scanner.ProcessInfo) (m : model) : model :=
  mkModel (table m) v (selectedPids m) (activeTab m) (err m) (width m)
    (height m) (loading m) (spinner m) (filterPorts m) (sortBy m)
    (sortDesc m) (textInput m) (searching m) (confirming m)
    (pendingPids m) (notification m).
Definition set_selectedPids (v : gset Z) (m : model) : model :=
  mkModel (table m) (processes m) v (activeTab m) (err m) (width m)
    (height m) (loading m) (spinner m) (filterPorts m) (sortBy m)
    (sortDesc m) (textInput m) (searching m) (confirming m)
    (pendingPids m) (notification m).
Definition set_activeTab (v : Z) (m : model) : model :=
  mkModel (table m) (processes m) (selectedPids m) v (err m) (width m)
    (height m) (loading m) (spinner m) (filterPorts m) (sortBy m)
    (sortDesc m) (textInput m) (searching m) (confirming m)
    (pendingPids m) (notification m).
Definition set_err (v : option error) (m : model) : model :=
  mkModel (table m) (processes m) (selectedPids m) (activeTab m) v
    (width m) (height m) (loading m) (spinner m) (filterPorts m)
    (sortBy m) (sortDesc m) (textInput m) (searching m) (confirming m)
    (pendingPids m) (notification m).
Definition set_width (v : Z) (m : model) : model :=
  mkModel (table m) (processes m) (selectedPids m) (activeTab m) (err
    m) v (height m) (loading m) (spinner m) (filterPorts m) (sortBy m)
    (sortDesc m) (textInput m) (searching m) (confirming m)
    (pendingPids m) (notification m).
Definition set_height (v : Z) (m : model) : model :=
  mkModel (table m) (processes m) (selectedPids m) (activeTab m) (err
    m) (width m) v (loading m) (spinner m) (filterPorts m) (sortBy m)
    (sortDesc m) (textInput m) (searching m) (confirming m)
    (pendingPids m) (notification m).
Definition set_loading (v : bool) (m : model) : model :=
  mkModel (table m) (processes m) (selectedPids m) (activeTab m) (err
    m) (width m) (height m) v (spinner m) (filterPorts m) (sortBy m)
    (sortDesc m) (textInput m) (searching m) (confirming m)
    (pendingPids m) (notification m).
Definition set_spinner (v : spinner.Model) (m : model) : model :=
  mkModel (table m) (processes m) (selectedPids m) (activeTab m) (err
    m) (width m) (height m) (loading m) v (filterPorts m) (sortBy m)
    (sortDesc m) (textInput m) (searching m) (confirming m)
    (pendingPids m) (notification m).
Definition set_filterPorts (v : bool) (m : model) : model :=
  mkModel (table m) (processes m) (selectedPids m) (activeTab m) (err
    m) (width m) (height m) (loading m) (spinner m) v (sortBy m)
    (sortDesc m) (textInput m) (searching m) (confirming m)
    (pendingPids m) (notification m).
Definition set_sortBy (v : Z) (m : model) : model :=
  mkModel (table m) (processes m) (selectedPids m) (activeTab m) (err
    m) (width m) (height m) (loading m) (spinner m) (filterPorts m) v
    (sortDesc m) (textInput m) (searching m) (confirming m)
    (pendingPids m) (notification m).
Definition set_sortDesc (v : bool) (m : model) : model :=
  mkModel (table m) (processes m) (selectedPids m) (activeTab m) (err
    m) (width m) (height m) (loading m) (spinner m) (filterPorts m)
    (sortBy m) v (textInput m) (searching m) (confirming m)
    (pendingPids m) (notification m).
Definition set_textInput (v : textinput.Model) (m : model) : model :=
  mkModel (table m) (processes m) (selectedPids m) (activeTab m) (err
    m) (width m) (height m) (loading m) (spinner m) (filterPorts m)
    (sortBy m) (sortDesc m) v (searching m) (confirming m)
    (pendingPids m) (notification m).
Definition set_searching (v : bool) (m : model) : model :=
  mkModel (table m) (processes m) (selectedPids m) (activeTab m) (err
    m) (width m) (height m) (loading m) (spinner m) (filterPorts m)
    (sortBy m) (sortDesc m) (textInput m) v (confirming m)
    (pendingPids m) (notification m).
Definition set_confirming (v : bool) (m : model) : model :=
  mkModel (table m) (processes m) (selectedPids m) (activeTab m) (err
    m) (width m) (height m) (loading m) (spinner m) (filterPorts m)
    (sortBy m) (sortDesc m) (textInput m) (searching m) v (pendingPids
    m) (notification m).
Definition set_pendingPids (v : list Z) (m : model) : model :=
  mkModel (table m) (processes m) (selectedPids m) (activeTab m) (err
    m) (width m) (height m) (loading m) (spinner m) (filterPorts m)
    (sortBy m) (sortDesc m) (textInput m) (searching m) (confirming m)
    v (notification m).
Definition set_notification (v : string) (m : model) : model :=
  mkModel (table m) (processes m) (selectedPids m) (activeTab m) (err
    m) (width m) (height m) (loading m) (spinner m) (filterPorts m)
    (sortBy m) (sortDesc m) (textInput m) (searching m) (confirming m)
    (pendingPids m) v.

(** The widgets' initial states in [initialModel]. *)
Definition newSpinnerModel : spinner.Model := {| spinner.frame := 0 |}.

Definition initialColumns : list table.Column :=
  [ {| table.Title := "X"; table.Width := 2 |};
    {| table.Title := "PID"; table.Width := 8 |};
    {| table.Title := "Name"; table.Width := 20 |};
    {| table.Title := "Ports"; table.Width := 15 |};
    {| table.Title := "CPU%"; table.Width := 6 |};
    {| table.Title := "Mem"; table.Width := 10 |};
    {| table.Title := "Type"; table.Width := 8 |} ].

Definition initialModel : model :=
  {| table := {| table.cols := initialColumns; table.rows := [];
                 table.cursor := 0; table.viewHeight := 10;
                 table.viewWidth := 0; table.focus := true |};
     processes := [];
     selectedPids := ∅;
     activeTab := 0;
     err := None;
     width := 0;
     height := 0;
     loading := true;
     spinner := newSpinnerModel;
     filterPorts := true;
     sortBy := SortPorts;
     sortDesc := true;
     textInput := {| textinput.Value := ""; textinput.focus := false |};
     searching := false;
     confirming := false;
     pendingPids := [];
     notification := "" |}.

(** *** toggleSelection, startKillProcess, killPending *)

Definition toggleSelection (m : model) : model :=
  match table.SelectedRow (table m) with
  | None => m
  | Some row =>
      let pid := GoLib.Sscanf_d (table.cell_pid row) in
      if bool_decide (pid ∈ selectedPids m)
      then set_selectedPids (selectedPids m ∖ {[ pid ]}) m
      else set_selectedPids (selectedPids m ∪ {[ pid ]}) m
  end.

(** The order of [range] over a map is not fixed by the language;
    [elements] is the order taken here. *)
Definition startKillProcess (m : model) : model :=
  let victims :=
    if 0 <? Z.of_nat (size (selectedPids m))
    then elements (selectedPids m)
    else
      match table.SelectedRow (table m) with
      | Some row => [GoLib.Sscanf_d (table.cell_pid row)]
      | None => []
      end in
  if Z.of_nat (length victims) =? 0
  then set_notification "No process selected." m
  else set_confirming true (set_pendingPids victims m).

(** The loop inside the closure of [killPending], with the variables
    [count] and [lastErr] it updates. *)
Fixpoint killLoop {S : Type} (K : Killer S) (pids : list Z)
    (count : Z) (lastErr : option error) (s : S)
    : Z * option error * S :=
  match pids with
  | [] => (count, lastErr, s)
  | pid :: rest =>
      match KillProcess K pid s with
      | (Some e, s') => killLoop K rest count (Some e) s'
      | (None, s') => killLoop K rest (count + 1) lastErr s'
      end
  end.

(** Running the closure: the message it returns and the system after. *)
Definition runKill {S : Type} (K : Killer S) (pids : list Z) (s : S)
    : Msg * S :=
  let '(count, lastErr, s') := killLoop K pids 0 None s in
  (killResultMsg count lastErr, s').

Definition killPending (m : model) : Cmd := [killCmd (pendingPids m)].

(** *** formatBytes *)

Definition unit : N := 1024.

(** [for n := b / unit; n >= unit; n /= unit { div *= unit; exp++ }];
    the fuel is the bit length of [n], which each turn shortens. *)
Fixpoint formatBytesLoop (fuel : nat) (n div : N) (exp : Z) : N * Z :=
  match fuel with
  | O => (div, exp)
  | S fuel' =>
      if (unit <=? n)%N
      then formatBytesLoop fuel' (n / unit)%N (div * unit)%N (exp + 1)
      else (div, exp)
  end.

Definition float_of_N (n : N) : float := GoLib.float_of_int (Z.of_N n).

(** [None] when ["KMGTPE"[exp]] is out of range. *)
Definition formatBytes (W : Widgets) (b : N) : option string :=
  if (b <? unit)%N then Some (String.append (GoLib.fmt_u b) " B")
  else
    let n := (b / unit)%N in
    let '(div, exp) := formatBytesLoop (N.size_nat n) n unit 0 in
    match String.get (Z.to_nat exp) "KMGTPE" with
    | Some c =>
        Some (String.append
                (fmt_f1 W (PrimFloat.div (float_of_N b) (float_of_N div)))
                (String " " (String c "B")))
    | None => None
    end.

(** *** updateTable: filter, sort, format *)

(** The tab filter's condition for [continue]. *)
Definition tabHides (m : model) (p : ProcessInfo) : bool :=
  ((activeTab m =? 0) && negb (ProcessType_eqb (Type_ p) UserProcess))
  || ((activeTab m =? 1) && negb (ProcessType_eqb (Type_ p) SystemProcess)).

(** The loop over the connections of the search filter, with its [break]. *)
Fixpoint portMatches (search : string) (conns : list Connection) : bool :=
  match conns with
  | [] => false
  | c :: rest =>
      if GoLib.Contains (GoLib.fmt_u (Port c)) search then true
      else portMatches search rest
  end.

Definition searchMatches (search : string) (p : ProcessInfo) : bool :=
  let matches := false in
  let matches :=
    if GoLib.Contains (GoLib.ToLower (Name p)) search then true
    else matches in
  if portMatches search (Connections p) then true else matches.

Fixpoint filterLoop (m : model) (search : string)
    (procs : list ProcessInfo) : list ProcessInfo :=
  match procs with
  | [] => []
  | p :: rest =>
      if tabHides m p then filterLoop m search rest
      else if filterPorts m && (Z.of_nat (length (Connections p)) =? 0)
      then filterLoop m search rest
      else if negb (String.eqb search "") && negb (searchMatches search p)
      then filterLoop m search rest
      else p :: filterLoop m search rest
  end.

(** The comparison handed to [sort.Slice], on the two elements at [i], [j]. *)
Definition less (m : model) (pi pj : ProcessInfo) : bool :=
  let less :=
    if sortBy m =? SortPID then PID pi <? PID pj
    else if sortBy m =? SortName then String.ltb (Name pi) (Name pj)
    else if sortBy m =? SortPorts then
      if Z.of_nat (length (Connections pi))
         =? Z.of_nat (length (Connections pj))
      then PID pi <? PID pj
      else Z.of_nat (length (Connections pi))
           <? Z.of_nat (length (Connections pj))
    else if sortBy m =? SortCPU then
      PrimFloat.ltb (CPUPercent pi) (CPUPercent pj)
    else if sortBy m =? SortMem then
      (MemoryUsage pi <? MemoryUsage pj)%N
    else PID pi <? PID pj in
  if sortDesc m then negb less else less.

(** The filtered and sorted records [updateTable] turns into rows. *)
Definition filtered (m : model) : list ProcessInfo :=
  let search := GoLib.ToLower (textinput.Value (textInput m)) in
  GoLib.sort_Slice (less m) (filterLoop m search (processes m)).

(** The loop that fills [listenPorts] and [otherPorts]. *)
Fixpoint portLabels (conns : list Connection)
    (listenPorts otherPorts : list string) : list string * list string :=
  match conns with
  | [] => (listenPorts, otherPorts)
  | c :: rest =>
      if String.eqb (Status c) "LISTEN"
      then portLabels rest
             (listenPorts ++ [String.append (GoLib.fmt_u (Port c)) "(L)"])
             otherPorts
      else portLabels rest listenPorts
             (otherPorts ++ [String.append (GoLib.fmt_u (Port c)) "(E)"])
  end.

Definition portsStrOf (p : ProcessInfo) : string :=
  let '(listenPorts, otherPorts) := portLabels (Connections p) [] [] in
  let allPorts := listenPorts ++ otherPorts in
  GoLib.Join allPorts ", ".

Definition portsWidthOf (t : table.Model) : Z :=
  match table.Columns t !! 3%nat with
  | Some c => table.Width c
  | None => 15
  end.

(** The ports cell; [None] is the panic of [portsStr[:portsWidth-3]]. *)
Definition portsCell (portsWidth : Z) (portsStr : string) : option string :=
  if portsWidth <? GoLib.len portsStr
  then s ← GoLib.slice_to portsStr (portsWidth - 3);
       Some (String.append s "...")
  else Some portsStr.

Definition formatRow (W : Widgets) (m : model) (p : ProcessInfo)
    : option table.Row :=
  let check := if bool_decide (PID p ∈ selectedPids m) then "x" else " " in
  portsStr ← portsCell (portsWidthOf (table m)) (portsStrOf p);
  mem ← formatBytes W (MemoryUsage p);
  Some {| table.cell_check := check;
          table.cell_pid := GoLib.fmt_d (PID p);
          table.cell_name := Name p;
          table.cell_ports := portsStr;
          table.cell_cpu := String.append (fmt_f1 W (CPUPercent p)) "%";
          table.cell_mem := mem;
          table.cell_type := AppType p |}.

Definition updateTable (W : Widgets) (m : model) : option model :=
  rows ← mapM (formatRow W m) (filtered m);
  let currIdx := table.Cursor (table m) in
  let t := table.SetRows rows (table m) in
  let t :=
    if Z.of_nat (length rows) <=? currIdx
    then table.SetCursor (Z.of_nat (length rows) - 1) t
    else t in
  Some (set_table t m).

(** *** Update *)

(** The columns a [WindowSizeMsg] of width [w] installs. *)
Definition resizeColumns (w : Z) : list table.Column :=
  let tableWidth := w - 4 in
  let fixedWidths := 34 in
  let avail := tableWidth - fixedWidths in
  let avail := if avail <? 0 then 0 else avail in
  let nameW :=
    GoLib.int_of_float
      (PrimFloat.mul (GoLib.float_of_int avail) 0x1.999999999999ap-2%float) in
  let nameW := if (nameW <? 10) && (10 <=? avail) then 10 else nameW in
  let portsW := avail - nameW in
  [ {| table.Title := "X"; table.Width := 2 |};
    {| table.Title := "PID"; table.Width := 8 |};
    {| table.Title := "Name"; table.Width := nameW |};
    {| table.Title := "Ports"; table.Width := portsW |};
    {| table.Title := "CPU%"; table.Width := 6 |};
    {| table.Title := "Mem"; table.Width := 10 |};
    {| table.Title := "Type"; table.Width := 8 |} ].

(** The last two lines of [Update]: the message goes on to the table. *)
Definition passToTable (W : Widgets) (msg : Msg) (spinnerCmd : Cmd)
    (m : model) : option (model * Cmd) :=
  Some (set_table (table.Moved (table_Update W msg (table m)) (table m)) m,
        Batch [[WidgetCmd]; spinnerCmd]).

(** A key while the search box has the focus. *)
Definition updateSearching (W : Widgets) (key : string) (spinnerCmd : Cmd)
    (m : model) : option (model * Cmd) :=
  if String.eqb key "enter" || String.eqb key "esc" then
    let m := set_searching false m in
    let m := set_table (table.SetFocus true (table m)) m in
    let m := set_textInput (textinput.SetFocus false (textInput m)) m in
    Some (m, spinnerCmd)
  else
    let m :=
      set_textInput (textinput_Update W (KeyMsg key) (textInput m)) m in
    m ← updateTable W m;
    Some (m, Batch [[WidgetCmd]; spinnerCmd]).

(** A key while a kill awaits confirmation. *)
Definition updateConfirming (key : string) (spinnerCmd : Cmd) (m : model)
    : option (model * Cmd) :=
  let k := GoLib.ToLower key in
  if String.eqb k "y" then
    let cmd := killPending m in
    let m := set_confirming false m in
    let m :=
      set_notification
        (String.append "Killing "
           (String.append (GoLib.fmt_d (Z.of_nat (length (pendingPids m))))
              " process(s)...")) m in
    Some (m, Batch [cmd; waitNotificationCmd; spinnerCmd])
  else if String.eqb k "n" || String.eqb k "esc" then
    let m := set_confirming false m in
    let m := set_pendingPids [] m in
    let m := set_notification "Cancelled." m in
    Some (m, Batch [waitNotificationCmd; spinnerCmd])
  else Some (m, spinnerCmd).

(** A key in the normal state. *)
Definition updateNormal (W : Widgets) (key : string) (spinnerCmd : Cmd)
    (m : model) : option (model * Cmd) :=
  if String.eqb key "q" || String.eqb key "ctrl+c" then Some (m, [Quit])
  else if String.eqb key "tab" then
    let m := set_activeTab (Z.rem (activeTab m + 1) 2) m in
    m ← updateTable W m;
    passToTable W (KeyMsg key) spinnerCmd m
  else if String.eqb key " " then
    let m := toggleSelection m in
    m ← updateTable W m;
    Some (m, spinnerCmd)
  else if String.eqb key "k" then
    passToTable W (KeyMsg key) spinnerCmd (startKillProcess m)
  else if String.eqb key "f" then
    let m := set_filterPorts (negb (filterPorts m)) m in
    m ← updateTable W m;
    passToTable W (KeyMsg key) spinnerCmd m
  else if String.eqb key "s" then
    let m := set_sortBy (Z.rem (sortBy m + 1) 5) m in
    m ← updateTable W m;
    passToTable W (KeyMsg key) spinnerCmd m
  else if String.eqb key "o" then
    let m := set_sortDesc (negb (sortDesc m)) m in
    m ← updateTable W m;
    passToTable W (KeyMsg key) spinnerCmd m
  else if String.eqb key "/" then
    let m := set_searching true m in
    let m := set_textInput (textinput.SetFocus true (textInput m)) m in
    let m := set_table (table.SetFocus false (table m)) m in
    Some (m, Batch [[Blink]; spinnerCmd])
  else passToTable W (KeyMsg key) spinnerCmd m.

(** [Update]; [None] when the call panics. *)
Definition Update (W : Widgets) (m : model) (msg : Msg)
    : option (model * Cmd) :=
  let spinnerCmd : Cmd := if loading m then [WidgetCmd] else [] in
  let m :=
    if loading m then set_spinner (spinner_Update W msg (spinner m)) m
    else m in
  match msg with
  | KeyMsg key =>
      if searching m then updateSearching W key spinnerCmd m
      else if confirming m then updateConfirming key spinnerCmd m
      else updateNormal W key spinnerCmd m
  | WindowSizeMsg w h =>
      let m := set_width w m in
      let m := set_height h m in
      let m := set_table (table.SetHeight (height m - 15) (table m)) m in
      let tableWidth := width m - 4 in
      let m := set_table (table.SetWidth tableWidth (table m)) m in
      let m :=
        set_table (table.SetColumns (resizeColumns (width m)) (table m)) m in
      passToTable W msg spinnerCmd m
  | scanStartMsg =>
      let m := set_loading true m in
      let m := set_spinner newSpinnerModel m in
      Some (m, [SpinnerTick])
  | scanMsg procs =>
      let m := set_processes procs m in
      let m := set_loading false m in
      m ← updateTable W m;
      passToTable W msg spinnerCmd m
  | tickMsg => Some (m, Batch [scanProcessesCmd; tickCmd; spinnerCmd])
  | killResultMsg count e =>
      let m :=
        match e with
        | Some e =>
            set_notification (String.append "Error: " e) m
        | None =>
            let m :=
              set_notification
                (String.append "Successfully killed "
                   (String.append (GoLib.fmt_d count) " process(s)")) m in
            set_selectedPids ∅ m
        end in
      Some (m, Batch [scanProcessesCmd; waitNotificationCmd; spinnerCmd])
  | notificationTimeoutMsg =>
      Some (set_notification "" m, spinnerCmd)
  | errMsg e => passToTable W msg spinnerCmd (set_err (Some e) m)
  | OtherMsg => passToTable W msg spinnerCmd m
  end.

(** The models the program can be in: [initialModel] and what [Update]
    returns from one of them. *)
Inductive reachable (W : Widgets) : model -> Prop :=
| reach_init : reachable W initialModel
| reach_step m msg m' cmd :
    reachable W m -> Update W m msg = Some (m', cmd) -> reachable W m'.

End main.

(** ** The earlier main.go: the columns of a resize

    [src/main.go] is the program before search and kill confirmation were
    added; its [updateTable] cuts the ports cell with the same slice
    expression, and its [WindowSizeMsg] case computes the columns with lower
    bounds. *)

Module main_go.

Local Open Scope string_scope.
Local Open Scope list_scope.
Local Open Scope Z_scope.

(** The columns a [WindowSizeMsg] of width [w] installs. *)
Definition resizeColumns (w : Z) : list table.Column :=
  let effectiveWidth := w - 4 in
  let fixedWidths := 34 in
  let avail := effectiveWidth - fixedWidths in
  let avail := if avail <? 35 then 35 else avail in
  let nameW :=
    GoLib.int_of_float
      (PrimFloat.mul (GoLib.float_of_int avail) 0x1.999999999999ap-2%float) in
  let nameW := if nameW <? 20 then 20 else nameW in
  let portsW := avail - nameW in
  let portsW := if portsW <? 15 then 15 else portsW in
  [ {| table.Title := "X"; table.Width := 2 |};
    {| table.Title := "PID"; table.Width := 8 |};
    {| table.Title := "Name"; table.Width := nameW |};
    {| table.Title := "Ports"; table.Width := portsW |};
    {| table.Title := "CPU%"; table.Width := 6 |};
    {| table.Title := "Mem"; table.Width := 10 |};
    {| table.Title := "Type"; table.Width := 8 |} ].

End main_go.

(** * Notions used in the statements *)

Import scanner main.

(** A fallible call failed. *)
Definition failed {A : Type} (r : result A) : Prop := exists e, r = Err e.

(** What [KillProcess] answers for each pid of [pids] in turn, the system
    being the one the previous calls left. *)
Fixpoint outcomes {S : Type} (K : Killer S) (pids : list Z) (s : S)
    : list (option error) :=
  match pids with
  | [] => []
  | pid :: rest =>
      let '(r, s') := KillProcess K pid s in r :: outcomes K rest s'
  end.

(** The number of successes, the first and the last error of such answers. *)
Fixpoint successes (l : list (option error)) : Z :=
  match l with
  | [] => 0
  | None :: l' => 1 + successes l'
  | Some _ :: l' => successes l'
  end.

Fixpoint first_error (l : list (option error)) : option error :=
  match l with
  | [] => None
  | Some e :: _ => Some e
  | None :: l' => first_error l'
  end.

Definition last_error (l : list (option error)) : option error :=
  first_error (List.rev l).









(** The three filters of the view derivation, one record at a time. *)
Definition inActiveGroup (m : model) (p : ProcessInfo) : bool :=
  if activeTab m =? 0 then ProcessType_eqb (Type_ p) UserProcess
  else if activeTab m =? 1 then ProcessType_eqb (Type_ p) SystemProcess
  else true.

Definition passesPortsFilter (m : model) (p : ProcessInfo) : bool :=
  if filterPorts m then negb (Nat.eqb (length (Connections p)) 0) else true.

Definition passesSearch (m : model) (p : ProcessInfo) : bool :=
  let search := GoLib.ToLower (textinput.Value (textInput m)) in
  if String.eqb search "" then true else searchMatches search p.

(** The order of the sort by port count: fewer connections first and, among
    equal counts, the smaller pid first. *)
Definition connCount (p : ProcessInfo) : Z :=
  Z.of_nat (length (Connections p)).

Definition portsOrder (p q : ProcessInfo) : Prop :=
  connCount p < connCount q
  \/ (connCount p = connCount q /\ PID p <= PID q).

(** The pids of the rows on display. *)
Definition rowPids (m : model) : list string :=
  map table.cell_pid (table.rows (table m)).

(** The model once the spinner has seen the message, and the change of view
    parameter the keys [f], [s] and [o] make. *)
Definition spun (W : Widgets) (msg : Msg) (m : model) : model :=
  if loading m then set_spinner (spinner_Update W msg (spinner m)) m else m.

Definition spinnerCmdOf (m : model) : Cmd :=
  if loading m then [WidgetCmd] else [].

Definition viewKey (key : string) (m : model) : model :=
  if String.eqb key "f" then set_filterPorts (negb (filterPorts m)) m
  else if String.eqb key "s" then set_sortBy (Z.rem (sortBy m + 1) 5) m
  else set_sortDesc (negb (sortDesc m)) m.

(** The search box and the confirmation prompt are never active together. *)
Definition modes_exclusive (m : model) : Prop :=
  confirming m = true -> searching m = false.

(** Everything but the spinner is as before. *)
Definition same_but_spinner (m m' : model) : Prop :=
  table m' = table m /\ processes m' = processes m
  /\ selectedPids m' = selectedPids m /\ activeTab m' = activeTab m
  /\ filterPorts m' = filterPorts m /\ sortBy m' = sortBy m
  /\ sortDesc m' = sortDesc m /\ textInput m' = textInput m
  /\ searching m' = searching m /\ confirming m' = confirming m
  /\ pendingPids m' = pendingPids m /\ notification m' = notification m
  /\ err m' = err m.

(** The record [ScanProcesses] makes of one enumerated connection, and the
    connections of [pid] among the enumerated ones, in enumeration order. *)
Definition connectionOf (c : gopsutil.ConnectionStat) : Connection :=
  {| Port := gopsutil.Port c; Status := gopsutil.Status c |}.

Definition connectionsOf (pid : Z) (conns : list gopsutil.ConnectionStat)
    : list Connection :=
  map connectionOf (List.filter (fun c => gopsutil.ConnPid c =? pid) conns).

(** The three tags [ScanProcesses] gives. *)
Definition appTypes : list string :=
  ["GUI App"; "Dev Tool"; "Binary"]%string.

(** A connection in the state LISTEN, and the label of a connection in the
    ports cell. *)
Definition isListen (c : Connection) : bool := String.eqb (Status c) "LISTEN".

Definition portLabel (c : Connection) : string :=
  String.append (GoLib.fmt_u (Port c)) (if isListen c then "(L)" else "(E)").

(** A record passes the three filters. *)
Definition kept (m : model) (p : ProcessInfo) : bool :=
  inActiveGroup m p && passesPortsFilter m p && passesSearch m p.

(** What every model the program reaches satisfies. *)
Definition well_formed (m : model) : Prop :=
  (activeTab m = 0 \/ activeTab m = 1)
  /\ 0 <= sortBy m <= 4
  /\ (confirming m = true -> searching m = false /\ pendingPids m <> []).

(** The view parameters, the selection and the modes of two models agree. *)
Definition same_view (m m' : model) : Prop :=
  selectedPids m' = selectedPids m /\ activeTab m' = activeTab m
  /\ filterPorts m' = filterPorts m /\ sortBy m' = sortBy m
  /\ sortDesc m' = sortDesc m /\ confirming m' = confirming m
  /\ pendingPids m' = pendingPids m.

(** The key of a sort by one integer field: the pid, or the memory. *)
Definition sortKeyOf (m : model) (p : ProcessInfo) : Z :=
  if sortBy m =? SortMem then Z.of_N (MemoryUsage p) else PID p.









(** * Concrete systems and sessions

    The inputs at which the statements below are evaluated. *)

Module Ex.

Local Open Scope string_scope.

(** A process every read of which succeeds, one whose name cannot be read,
    and one of which only the name can be read. *)
Definition p_ok : gopsutil.Process :=
  {| gopsutil.Pid := 200;
     gopsutil.Name := Ok "redis-server";
     gopsutil.Username := Ok "alice";
     gopsutil.Cwd := Ok "/var/lib/redis";
     gopsutil.Cmdline := Ok "redis-server *:6379";
     gopsutil.Percent := Ok 1.5%float;
     gopsutil.MemoryInfo := Ok {| gopsutil.RSS := 4096 |} |}.

Definition p_gone : gopsutil.Process :=
  {| gopsutil.Pid := 300;
     gopsutil.Name := Err "no such process";
     gopsutil.Username := Ok "alice";
     gopsutil.Cwd := Ok "/";
     gopsutil.Cmdline := Ok "sleep 1";
     gopsutil.Percent := Ok 0%float;
     gopsutil.MemoryInfo := Ok {| gopsutil.RSS := 512 |} |}.

Definition p_denied : gopsutil.Process :=
  {| gopsutil.Pid := 1;
     gopsutil.Name := Ok "launchd";
     gopsutil.Username := Err "permission denied";
     gopsutil.Cwd := Err "permission denied";
     gopsutil.Cmdline := Err "permission denied";
     gopsutil.Percent := Err "permission denied";
     gopsutil.MemoryInfo := Err "permission denied" |}.

Definition conn_redis : gopsutil.ConnectionStat :=
  {| gopsutil.Port := 6379; gopsutil.Status := "LISTEN";
     gopsutil.ConnPid := 200 |}.

(** The user lookup fails although both enumerations work. *)
Definition os_no_user : gopsutil.OS :=
  {| gopsutil.user_Current := Err "user: unknown userid 501";
     gopsutil.process_Processes := Ok [p_ok];
     gopsutil.net_Connections := Ok [conn_redis] |}.

(** Only the enumeration of the connections fails. *)
Definition os_no_net : gopsutil.OS :=
  {| gopsutil.user_Current := Ok "alice";
     gopsutil.process_Processes := Ok [p_ok; p_gone; p_denied];
     gopsutil.net_Connections := Err "permission denied" |}.

(** A system in which the pids of [gone] no longer exist; its state is the
    list of the pids killed so far. *)
Definition killer (gone : list Z) : Killer (list Z) :=
  {| NewProcess := fun pid _ =>
       if existsb (Z.eqb pid) gone
       then Err (String.append "process does not exist: " (GoLib.fmt_d pid))
       else Ok pid;
     Kill := fun p killed => (None, List.app killed [p]) |}.

(** Records and sessions of the view. *)
Definition listening (port : N) : Connection :=
  {| Port := port; Status := "LISTEN" |}.

Definition established (port : N) : Connection :=
  {| Port := port; Status := "ESTABLISHED" |}.

Definition proc (pid : Z) (name : string) (ty : ProcessType)
    (conns : list Connection) : ProcessInfo :=
  {| PID := pid; Name := name; User := "alice"; Type_ := ty;
     Connections := conns; Cwd := "/"; Command := name;
     AppType := "Binary"; IsSelected := false;
     CPUPercent := 0%float; MemoryUsage := 2048 |}.

(** Widgets that leave everything where it is. *)
Definition still : Widgets :=
  {| table_Update := fun _ t => table.Cursor t;
     textinput_Update := fun _ t => t;
     spinner_Update := fun _ sp => sp;
     fmt_f1 := fun _ => "0.0" |}.

(** Two records with one connection each, in the default view. *)
Definition p2 : ProcessInfo := proc 2 "nginx" UserProcess [listening 80].
Definition p5 : ProcessInfo := proc 5 "node" UserProcess [listening 3000].
Definition m_ties : model := set_processes [p2; p5] initialModel.

(** A snapshot of two processes of the user: pid 100 without ports and
    pid 200 listening on 8080. *)
Definition p100 : ProcessInfo := proc 100 "bash" UserProcess [].
Definition p200 : ProcessInfo :=
  proc 200 "httpd" UserProcess [listening 8080].
Definition snapshot : list ProcessInfo := [p100; p200].


(** The session after the first snapshot, then after the key [k] on the
    row of pid 200, and a session with pid 100 selected and every process
    of the user on display. *)
Definition after (m : model) (msg : Msg) : model :=
  match Update still m msg with
  | Some (m', _) => m'
  | None => m
  end.

Definition m_scanned : model := after initialModel (scanMsg snapshot).
Definition m_confirming : model := after m_scanned (KeyMsg "k").
Definition m_selected : model :=
  set_selectedPids {[ 100 ]} (after m_scanned (KeyMsg "f")).

(** A system with three processes and four connections, two of them of
    pid 200. *)
Definition conn_http : gopsutil.ConnectionStat :=
  {| gopsutil.Port := 8080; gopsutil.Status := "ESTABLISHED";
     gopsutil.ConnPid := 200 |}.
Definition conn_init : gopsutil.ConnectionStat :=
  {| gopsutil.Port := 22; gopsutil.Status := "LISTEN";
     gopsutil.ConnPid := 1 |}.
Definition os_full : gopsutil.OS :=
  {| gopsutil.user_Current := Ok "alice";
     gopsutil.process_Processes := Ok [p_ok; p_gone; p_denied];
     gopsutil.net_Connections := Ok [conn_redis; conn_init; conn_http] |}.

(** A record with listening and established connections. *)
Definition p7 : ProcessInfo :=
  proc 7 "srv" UserProcess [established 51000; listening 80; listening 8443].



End Ex.

(** * The snapshot collector *)

Section Collector.

Variable currentUser : string.
Variable connMap : gmap Z (list Connection).


Lemma scanOne_None (p : gopsutil.Process) :
  scanOne currentUser connMap p = None <-> failed (gopsutil.Name p).
Proof.
  unfold scanOne, failed. destruct (gopsutil.Name p) as [name|e].
  - split; [discriminate|]. intros [e' He]. discriminate.
  - split; [eauto|reflexivity].
Qed.

End Collector.



Lemma scanOne_connections (currentUser : string)
    (connMap : gmap Z (list Connection)) (p : gopsutil.Process)
    (info : ProcessInfo) :
  scanOne currentUser connMap p = Some info ->
  Connections info = default [] (connMap !! gopsutil.Pid p).
Proof.
  unfold scanOne. destruct (gopsutil.Name p); [|discriminate].
  intros [= <-]. reflexivity.
Qed.

Lemma scanLoop_no_connections (currentUser : string)
    (procs : list gopsutil.Process) :
  Forall (fun info => Connections info = [])
         (scanLoop currentUser ∅ procs).
Proof.
  induction procs as [|p rest IH]; simpl; [constructor|].
  destruct (scanOne currentUser ∅ p) as [info|] eqn:E; [|exact IH].
  constructor; [|exact IH].
  rewrite (scanOne_connections _ _ _ _ E). reflexivity.
Qed.

(** C6, as the claim has it, fails: the scan also returns an error when the
    lookup of the current user fails, although the processes can be
    enumerated. *)
Lemma C6_counterexample :
  ~ (forall os : gopsutil.OS,
       failed (ScanProcesses os) <-> failed (gopsutil.process_Processes os)).
Proof.
  intros H. destruct (H Ex.os_no_user) as [H1 _].
  destruct H1 as [e He].
  - eexists. reflexivity.
  - discriminate He.
Qed.

(** C6, amended.  The scan returns an error, and no snapshot, exactly when
    the lookup of the current user or the enumeration of the processes
    fails.  A failed enumeration of the connections is no error: the scan
    runs with the empty map and every record of the snapshot has an empty
    connection list. *)
Theorem C6_hard_error (os : gopsutil.OS) :
  (failed (ScanProcesses os)
   <-> failed (gopsutil.user_Current os)
       \/ failed (gopsutil.process_Processes os))
  /\ (failed (gopsutil.net_Connections os) ->
      forall u procs,
        gopsutil.user_Current os = Ok u ->
        gopsutil.process_Processes os = Ok procs ->
        ScanProcesses os = Ok (scanLoop u ∅ procs)
        /\ Forall (fun info => Connections info = []) (scanLoop u ∅ procs)).
Proof.
  split.
  - unfold ScanProcesses, failed.
    destruct (gopsutil.user_Current os) as [u|eu].
    + destruct (gopsutil.process_Processes os) as [procs|ep].
      * split.
        -- intros [e He]. discriminate.
        -- intros [[e He]|[e He]]; discriminate.
      * split; eauto.
    + split; eauto.
  - intros [e He] u procs Hu Hp. unfold ScanProcesses.
    rewrite Hu, Hp, He. simpl. split; [reflexivity|].
    apply scanLoop_no_connections.
Qed.

(** With the connections unreadable the scan still returns its records,
    none with a connection. *)
Lemma C6_hard_error_witness :
  ScanProcesses Ex.os_no_net
  = Ok (scanLoop "alice" ∅ [Ex.p_ok; Ex.p_gone; Ex.p_denied])
  /\ Forall (fun info => Connections info = [])
            (scanLoop "alice" ∅ [Ex.p_ok; Ex.p_gone; Ex.p_denied]).
Proof.
  destruct (C6_hard_error Ex.os_no_net) as [_ H].
  apply H.
  - exists "permission denied"%string. reflexivity.
  - reflexivity.
  - reflexivity.
Defined.

(** * The terminator *)

Section Terminator.

Context {S : Type} (K : Killer S).

Lemma first_error_app (l1 l2 : list (option error)) :
  first_error (l1 ++ l2)
  = match first_error l1 with
    | Some e => Some e
    | None => first_error l2
    end.
Proof.
  induction l1 as [|[e|] l1 IH]; simpl; auto.
Qed.

Lemma last_error_cons (r : option error) (l : list (option error)) :
  last_error (r :: l)
  = match last_error l with
    | Some e => Some e
    | None => r
    end.
Proof.
  unfold last_error. simpl. rewrite first_error_app.
  destruct (first_error (List.rev l)); [reflexivity|].
  destruct r; reflexivity.
Qed.

Lemma outcomes_length (pids : list Z) (s : S) :
  length (outcomes K pids s) = length pids.
Proof.
  revert s. induction pids as [|pid rest IH]; intros s; simpl; [reflexivity|].
  destruct (KillProcess K pid s) as [r s']. simpl. rewrite IH. reflexivity.
Qed.

(** The loop never stops early: it runs through [a ++ b] by running
    through [a] and then, whatever happened, through [b]. *)
Lemma killLoop_app (a b : list Z) (count : Z) (lastErr : option error)
    (s : S) :
  killLoop K (a ++ b) count lastErr s
  = let '(count', lastErr', s') := killLoop K a count lastErr s in
    killLoop K b count' lastErr' s'.
Proof.
  revert count lastErr s.
  induction a as [|pid rest IH]; intros count lastErr s; simpl;
    [reflexivity|].
  destruct (KillProcess K pid s) as [[e|] s']; apply IH.
Qed.

Lemma killLoop_outcomes (pids : list Z) (count : Z)
    (lastErr : option error) (s : S) :
  fst (killLoop K pids count lastErr s)
  = (count + successes (outcomes K pids s),
     match last_error (outcomes K pids s) with
     | Some e => Some e
     | None => lastErr
     end).
Proof.
  revert count lastErr s.
  induction pids as [|pid rest IH]; intros count lastErr s; simpl.
  - f_equal. lia.
  - destruct (KillProcess K pid s) as [[e|] s'] eqn:E; simpl;
      rewrite IH, last_error_cons.
    + f_equal. destruct (last_error (outcomes K rest s')); reflexivity.
    + f_equal; [lia|].
      destruct (last_error (outcomes K rest s')); reflexivity.
Qed.

End Terminator.

(** C2, as the claim has it, fails: when two pids fail, the error returned
    is the one of the second, not the first one met. *)
Lemma C2_counterexample :
  ~ (forall (S : Type) (K : Killer S) (pids : list Z) (s : S),
       snd (fst (killLoop K pids 0 None s))
       = first_error (outcomes K pids s)).
Proof.
  intros H. specialize (H (list Z) (Ex.killer [1; 2]) [1; 2] []).
  vm_compute in H. discriminate H.
Qed.

(** C2, amended.  Every pid is attempted, whatever happened to the pids
    before it; the count returned is the number of pids whose termination
    succeeded; the error returned is the last error met, none if there was
    none.  For the pids 1, 2, 3 of which only 2 fails, the message carries
    the count 2 and the error of pid 2, and both 1 and 3 were killed. *)
Theorem C2_kill_aggregation :
  (forall (S : Type) (K : Killer S) (pids : list Z) (s : S),
     length (outcomes K pids s) = length pids
     /\ fst (runKill K pids s)
        = killResultMsg (successes (outcomes K pids s))
                        (last_error (outcomes K pids s)))
  /\ runKill (Ex.killer [2]) [1; 2; 3] []
     = (killResultMsg 2 (Some "process does not exist: 2"%string), [1; 3]).
Proof.
  split.
  - intros S K pids s. split; [apply outcomes_length|].
    unfold runKill.
    pose proof (killLoop_outcomes K pids 0 None s) as H.
    destruct (killLoop K pids 0 None s) as [[count lastErr] s'].
    simpl in *. injection H as -> ->. f_equal.
    destruct (last_error (outcomes K pids s)); reflexivity.
  - reflexivity.
Qed.

(** * sort.Slice as modelled: a sorted permutation *)

Section InsertionSort.

Context {A : Type} (cmp : A -> A -> bool) (le : A -> A -> Prop).

Lemma insert_back_Permutation (x : A) (l : list A) :
  Permutation (GoLib.insert_back cmp x l) (x :: l).
Proof.
  induction l as [|y l IH]; simpl; [reflexivity|].
  destruct (cmp x y); [|reflexivity].
  rewrite IH. apply perm_swap.
Qed.

Lemma sort_Slice_Permutation (l : list A) :
  Permutation (GoLib.sort_Slice cmp l) l.
Proof.
  unfold GoLib.sort_Slice.
  assert (H : forall acc,
             Permutation
               (fold_left (fun acc x => GoLib.insert_back cmp x acc) l acc)
               (List.rev l ++ acc)).
  { induction l as [|x l IH]; intros acc; simpl; [reflexivity|].
    rewrite IH, insert_back_Permutation, <- app_assoc. simpl.
    apply Permutation_app_head. reflexivity. }
  rewrite <- Permutation_rev, H, app_nil_r, <- Permutation_rev.
  reflexivity.
Qed.

Hypothesis le_trans : forall x y z, le x y -> le y z -> le x z.
Hypothesis cmp_true : forall x y, cmp x y = true -> le x y.
Hypothesis cmp_false : forall x y, cmp x y = false -> le y x.

Lemma insert_back_sorted (x : A) (l : list A) :
  StronglySorted (flip le) l ->
  StronglySorted (flip le) (GoLib.insert_back cmp x l).
Proof.
  induction l as [|y l IH]; simpl; intros Hs.
  - repeat constructor.
  - apply StronglySorted_inv in Hs. destruct Hs as [Hs Hy].
    destruct (cmp x y) eqn:E.
    + constructor; [auto|].
      rewrite insert_back_Permutation. constructor; [|exact Hy].
      apply cmp_true. exact E.
    + constructor; [constructor; assumption|].
      constructor; [apply cmp_false; exact E|].
      eapply Forall_impl; [exact Hy|].
      intros z Hz. unfold flip in *.
      eapply le_trans; [exact Hz|]. apply cmp_false. exact E.
Qed.

Lemma StronglySorted_flip_rev (l : list A) :
  StronglySorted (flip le) l -> StronglySorted le (List.rev l).
Proof.
  induction 1 as [|x l Hs IH Hx]; simpl; [constructor|].
  apply StronglySorted_app_2; [|exact IH|repeat constructor].
  intros x1 x2 H1 H2. apply list_elem_of_singleton in H2. subst x2.
  apply list_elem_of_In, in_rev, list_elem_of_In in H1.
  rewrite Forall_forall in Hx. apply Hx. exact H1.
Qed.

Lemma sort_Slice_sorted (l : list A) :
  StronglySorted le (GoLib.sort_Slice cmp l).
Proof.
  unfold GoLib.sort_Slice. apply StronglySorted_flip_rev.
  assert (H : forall acc,
             StronglySorted (flip le) acc ->
             StronglySorted (flip le)
               (fold_left (fun acc x => GoLib.insert_back cmp x acc) l acc)).
  { induction l as [|x l IH]; intros acc Hacc; simpl; [exact Hacc|].
    apply IH, insert_back_sorted, Hacc. }
  apply H. constructor.
Qed.

Lemma StronglySorted_lookup_lt (l : list A) (i j : nat) (x y : A) :
  StronglySorted le l ->
  l !! i = Some x -> l !! j = Some y -> (i < j)%nat -> le x y.
Proof.
  intros Hs. revert i j.
  induction Hs as [|a l Hs IH Ha]; intros i j Hi Hj Hlt.
  - discriminate Hi.
  - destruct j as [|j]; [lia|]. simpl in Hj.
    destruct i as [|i]; simpl in Hi.
    + injection Hi as ->. rewrite Forall_forall in Ha.
      apply Ha. eapply list_elem_of_lookup_2. exact Hj.
    + apply (IH i j); [assumption|assumption|lia].
Qed.

End InsertionSort.

(** * The sort by port count *)

Lemma portsOrder_trans (x y z : ProcessInfo) :
  portsOrder x y -> portsOrder y z -> portsOrder x z.
Proof. unfold portsOrder. lia. Qed.

Lemma less_ports (m : model) (p q : ProcessInfo) :
  sortBy m = SortPorts ->
  less m p q
  = let lt :=
      if connCount p =? connCount q then PID p <? PID q
      else connCount p <? connCount q in
    if sortDesc m then negb lt else lt.
Proof.
  intros H. unfold less. rewrite H. reflexivity.
Qed.

Lemma less_ports_ascending (m : model) (p q : ProcessInfo) :
  sortBy m = SortPorts -> sortDesc m = false ->
  (less m p q = true -> portsOrder p q)
  /\ (less m p q = false -> portsOrder q p).
Proof.
  intros Hby Hd. rewrite (less_ports m p q Hby). cbv zeta. rewrite Hd.
  unfold portsOrder.
  destruct (Z.eqb_spec (connCount p) (connCount q));
    [destruct (Z.ltb_spec (PID p) (PID q))
    |destruct (Z.ltb_spec (connCount p) (connCount q))];
    split; intros; try discriminate; lia.
Qed.

Lemma less_ports_descending (m : model) (p q : ProcessInfo) :
  sortBy m = SortPorts -> sortDesc m = true ->
  (less m p q = true -> portsOrder q p)
  /\ (less m p q = false -> portsOrder p q).
Proof.
  intros Hby Hd. rewrite (less_ports m p q Hby). cbv zeta. rewrite Hd.
  unfold portsOrder.
  destruct (Z.eqb_spec (connCount p) (connCount q));
    [destruct (Z.ltb_spec (PID p) (PID q))
    |destruct (Z.ltb_spec (connCount p) (connCount q))];
    split; simpl; intros; try discriminate; lia.
Qed.

(** Sorting by port count: ascending yields [portsOrder], descending its
    converse. *)
Lemma sort_ports_sorted (m : model) (l : list ProcessInfo) :
  sortBy m = SortPorts ->
  if sortDesc m
  then StronglySorted (flip portsOrder) (GoLib.sort_Slice (less m) l)
  else StronglySorted portsOrder (GoLib.sort_Slice (less m) l).
Proof.
  intros Hby. destruct (sortDesc m) eqn:Hd.
  - apply sort_Slice_sorted.
    + intros x y z Hxy Hyz. unfold flip in *.
      eapply portsOrder_trans; eassumption.
    + intros x y. apply (less_ports_descending m x y Hby Hd).
    + intros x y. apply (less_ports_descending m x y Hby Hd).
  - apply sort_Slice_sorted.
    + apply portsOrder_trans.
    + intros x y. apply (less_ports_ascending m x y Hby Hd).
    + intros x y. apply (less_ports_ascending m x y Hby Hd).
Qed.

Lemma filtered_ports_sorted (m : model) :
  sortBy m = SortPorts ->
  if sortDesc m then StronglySorted (flip portsOrder) (filtered m)
  else StronglySorted portsOrder (filtered m).
Proof.
  intros Hby. unfold filtered. apply sort_ports_sorted. exact Hby.
Qed.

Lemma NoDup_PID_inj (l : list ProcessInfo) (x y : ProcessInfo) :
  NoDup (map PID l) -> x ∈ l -> y ∈ l -> PID x = PID y -> x = y.
Proof.
  induction l as [|a l IH]; simpl; intros Hnd Hx Hy Hpid.
  - apply elem_of_nil in Hx. contradiction.
  - apply NoDup_cons in Hnd as [Ha Hnd].
    apply elem_of_cons in Hx as [->|Hx];
      apply elem_of_cons in Hy as [->|Hy]; auto.
    + exfalso. apply Ha. rewrite Hpid.
      apply (list_elem_of_fmap_2 PID). exact Hy.
    + exfalso. apply Ha. rewrite <- Hpid.
      apply (list_elem_of_fmap_2 PID). exact Hx.
Qed.

(** On records with distinct pids the order leaves one sorted arrangement
    only: whatever procedure sorts them by port count returns the list
    [sort_Slice] returns. *)
Lemma sort_ports_unique (m : model) (l out : list ProcessInfo) :
  sortBy m = SortPorts ->
  NoDup (map PID l) ->
  Permutation out l ->
  (if sortDesc m then StronglySorted (flip portsOrder) out
   else StronglySorted portsOrder out) ->
  out = GoLib.sort_Slice (less m) l.
Proof.
  intros Hby Hnd Hperm Hout.
  pose proof (sort_ports_sorted m l Hby) as Hs.
  assert (Hp : Permutation out (GoLib.sort_Slice (less m) l))
    by (rewrite sort_Slice_Permutation; exact Hperm).
  assert (Hinj : forall x1 x2,
             x1 ∈ out -> x2 ∈ GoLib.sort_Slice (less m) l ->
             PID x1 = PID x2 -> x1 = x2).
  { intros x1 x2 H1 H2. rewrite Hperm in H1.
    rewrite sort_Slice_Permutation in H2.
    apply (NoDup_PID_inj l); assumption. }
  destruct (sortDesc m).
  - apply (StronglySorted_unique_strong (flip portsOrder)); auto.
    intros x1 x2 H1 H2 Ha Hb. apply Hinj; auto.
    unfold flip, portsOrder in *. lia.
  - apply (StronglySorted_unique_strong portsOrder); auto.
    intros x1 x2 H1 H2 Ha Hb. apply Hinj; auto.
    unfold portsOrder in *. lia.
Qed.

(** C1, as the claim has it, fails: with [sortDesc] on, of two records with
    one connection each the one with the larger pid comes first. *)
Lemma C1_counterexample :
  ~ (forall (m : model) (p q : ProcessInfo) (i j : nat),
       sortBy m = SortPorts ->
       length (Connections p) = length (Connections q) ->
       PID p < PID q ->
       filtered m !! i = Some p ->
       filtered m !! j = Some q ->
       (i < j)%nat).
Proof.
  intros H.
  specialize (H Ex.m_ties Ex.p2 Ex.p5 1%nat 0%nat eq_refl eq_refl eq_refl
                eq_refl eq_refl).
  lia.
Qed.

(** C1, amended.  Of two records with equal connection counts among the
    records sorted by port count, the one with the smaller pid comes first
    when [sortDesc] is off and comes last when [sortDesc] is on: descending
    negates the whole comparison, the tie-break included. *)
Theorem C1_ports_tie_break (m : model) (p q : ProcessInfo) (i j : nat) :
  sortBy m = SortPorts ->
  length (Connections p) = length (Connections q) ->
  PID p < PID q ->
  filtered m !! i = Some p ->
  filtered m !! j = Some q ->
  if sortDesc m then (j < i)%nat else (i < j)%nat.
Proof.
  intros Hby Hlen Hpid Hi Hj.
  assert (Hc : connCount p = connCount q) by (unfold connCount; lia).
  assert (Hne : i <> j) by (intros ->; rewrite Hi in Hj;
                            injection Hj as ->; lia).
  pose proof (filtered_ports_sorted m Hby) as Hs.
  destruct (sortDesc m).
  - destruct (Nat.lt_ge_cases j i) as [|Hge]; [assumption|exfalso].
    assert (Hlt : (i < j)%nat) by lia.
    pose proof (StronglySorted_lookup_lt _ _ _ _ _ _ Hs Hi Hj Hlt) as Ho.
    unfold flip, portsOrder in Ho. lia.
  - destruct (Nat.lt_ge_cases i j) as [|Hge]; [assumption|exfalso].
    assert (Hlt : (j < i)%nat) by lia.
    pose proof (StronglySorted_lookup_lt _ _ _ _ _ _ Hs Hj Hi Hlt) as Ho.
    unfold portsOrder in Ho. lia.
Qed.

(** The two tied records in both directions. *)
Lemma C1_ports_tie_break_witness :
  filtered Ex.m_ties = [Ex.p5; Ex.p2]
  /\ filtered (set_sortDesc false Ex.m_ties) = [Ex.p2; Ex.p5]
  /\ (0 < 1)%nat.
Proof.
  split; [reflexivity|]. split; [reflexivity|].
  exact (C1_ports_tie_break (set_sortDesc false Ex.m_ties) Ex.p2 Ex.p5
           0%nat 1%nat eq_refl eq_refl eq_refl eq_refl eq_refl).
Defined.

(** * The view derivation *)

Lemma filterLoop_filter (m : model) (procs : list ProcessInfo) :
  filterLoop m (GoLib.ToLower (textinput.Value (textInput m))) procs
  = List.filter (passesSearch m)
      (List.filter (passesPortsFilter m)
         (List.filter (inActiveGroup m) procs)).
Proof.
  induction procs as [|p rest IH]; simpl; [reflexivity|].
  rewrite IH. clear IH.
  unfold tabHides, inActiveGroup, passesPortsFilter, passesSearch.
  destruct (activeTab m =? 0) eqn:E0.
  - apply Z.eqb_eq in E0. rewrite E0. simpl.
    destruct (ProcessType_eqb (Type_ p) UserProcess); simpl; [|reflexivity].
    destruct (filterPorts m); simpl;
      destruct (Connections p); simpl;
      destruct (String.eqb _ ""); simpl; try reflexivity;
      destruct (searchMatches _ _); reflexivity.
  - simpl. destruct (activeTab m =? 1); simpl.
    + destruct (ProcessType_eqb (Type_ p) SystemProcess); simpl;
        [|reflexivity].
      destruct (filterPorts m); simpl;
        destruct (Connections p); simpl;
        destruct (String.eqb _ ""); simpl; try reflexivity;
        destruct (searchMatches _ _); reflexivity.
    + destruct (filterPorts m); simpl;
        destruct (Connections p); simpl;
        destruct (String.eqb _ ""); simpl; try reflexivity;
        destruct (searchMatches _ _); reflexivity.
Qed.

(** [updateTable] writes the table and nothing else; its rows are the
    formatted records of [filtered], in order. *)
Lemma updateTable_frame (W : Widgets) (m m' : model) :
  updateTable W m = Some m' ->
  exists t,
    m' = set_table t m
    /\ table.cols t = table.cols (table m)
    /\ mapM (formatRow W m) (filtered m) = Some (table.rows t).
Proof.
  unfold updateTable.
  destruct (mapM (formatRow W m) (filtered m)) as [rows|]; simpl;
    [|discriminate].
  intros [= <-]. eexists. split; [reflexivity|].
  destruct (Z.of_nat (length rows) <=? table.Cursor (table m));
    simpl; split; reflexivity.
Qed.

Lemma formatRow_cells (W : Widgets) (m : model) (p : ProcessInfo)
    (row : table.Row) :
  formatRow W m p = Some row ->
  table.cell_pid row = GoLib.fmt_d (PID p)
  /\ table.cell_check row
     = (if bool_decide (PID p ∈ selectedPids m) then "x" else " ")%string.
Proof.
  unfold formatRow.
  destruct (portsCell _ _); simpl; [|discriminate].
  destruct (formatBytes _ _); simpl; [|discriminate].
  intros [= <-]. split; reflexivity.
Qed.

Lemma updateTable_rows (W : Widgets) (m m' : model) :
  updateTable W m = Some m' ->
  Forall2 (fun p row => formatRow W m p = Some row)
          (filtered m) (table.rows (table m')).
Proof.
  intros H. apply updateTable_frame in H as (t & -> & _ & Hrows).
  apply mapM_Some in Hrows. exact Hrows.
Qed.

Lemma updateTable_rowPids (W : Widgets) (m m' : model) :
  updateTable W m = Some m' ->
  rowPids m' = map (fun p => GoLib.fmt_d (PID p)) (filtered m).
Proof.
  intros H. apply updateTable_rows in H. unfold rowPids.
  induction H as [|p row ps rows Hrow _ IH]; simpl; [reflexivity|].
  apply formatRow_cells in Hrow as [-> _]. rewrite IH. reflexivity.
Qed.

Lemma Update_viewKey (W : Widgets) (m : model) (key : string) :
  searching m = false -> confirming m = false ->
  key = "f"%string \/ key = "s"%string \/ key = "o"%string ->
  Update W m (KeyMsg key)
  = (m1 ← updateTable W (viewKey key (spun W (KeyMsg key) m));
     passToTable W (KeyMsg key) (spinnerCmdOf m) m1).
Proof.
  intros Hs Hc Hk. unfold Update, spun, spinnerCmdOf.
  destruct (loading m); simpl; rewrite Hs, Hc;
    destruct Hk as [-> | [-> | ->]]; reflexivity.
Qed.

Lemma updateTable_Some (W : Widgets) (m : model) (rows : list table.Row) :
  mapM (formatRow W m) (filtered m) = Some rows ->
  exists t,
    updateTable W m = Some (set_table t m) /\ table.rows t = rows
    /\ table.cols t = table.cols (table m).
Proof.
  intros H. unfold updateTable. rewrite H. simpl.
  eexists. split; [reflexivity|].
  destruct (Z.of_nat (length rows) <=? table.Cursor (table m));
    split; reflexivity.
Qed.


(** * The ports cell *)

Lemma portsCell_wide (w : Z) (s : string) :
  3 <= w -> is_Some (portsCell w s).
Proof.
  intros Hw. unfold portsCell, GoLib.slice_to.
  destruct (Z.ltb_spec w (GoLib.len s)) as [Hlt|Hge]; [|eexists; reflexivity].
  destruct (Z.ltb_spec (w - 3) 0) as [|_]; [lia|].
  destruct (Z.ltb_spec (GoLib.len s) (w - 3)) as [|_]; [lia|].
  simpl. eexists. reflexivity.
Qed.

Lemma portsCell_narrow (w : Z) (s : string) :
  w < 3 -> w < GoLib.len s -> portsCell w s = None.
Proof.
  intros Hw Hlen. unfold portsCell, GoLib.slice_to.
  destruct (Z.ltb_spec w (GoLib.len s)) as [_|]; [|lia].
  destruct (Z.ltb_spec (w - 3) 0) as [_|]; [|lia].
  reflexivity.
Qed.

(** C10.  The code does not keep the slice in range.  A window 38 columns
    wide leaves the ports column the width 0; the next snapshot with a
    process that has a connection makes [updateTable] evaluate
    [portsStr[:-3]], and [Update] panics. *)
Theorem C10_narrow_window_panics (W : Widgets) :
  exists m1 c1,
    Update W initialModel (WindowSizeMsg 38 40) = Some (m1, c1)
    /\ portsWidthOf (table m1) = 0
    /\ portsCell 0 (portsStrOf Ex.p200) = None
    /\ Update W m1 (scanMsg [Ex.p200]) = None.
Proof.
  eexists _, _. split; [vm_compute; reflexivity|].
  split; [reflexivity|]. split; [reflexivity|].
  vm_compute. reflexivity.
Qed.

(** * The input-routing state machine *)

(** Case analysis of one call of [Update]: every test is decided, every
    call of [updateTable] is replaced by the table it wrote. *)
Ltac update_cases :=
  repeat
    match goal with
    | |- context [updateTable ?W ?m] =>
        let E := fresh "E" in
        destruct (updateTable W m) as [?|] eqn:E; simpl;
        [apply updateTable_frame in E as (? & -> & _)|]
    | |- context [if ?b then _ else _] =>
        let E := fresh "E" in destruct b eqn:E; simpl
    | |- Some _ = Some _ -> _ => intros [= <- <-]; simpl
    | |- None = Some _ -> _ => discriminate
    end.

Lemma toggleSelection_modes (m : model) :
  searching (toggleSelection m) = searching m
  /\ confirming (toggleSelection m) = confirming m.
Proof.
  unfold toggleSelection.
  destruct (table.SelectedRow (table m)); [|split; reflexivity].
  destruct (bool_decide _); split; reflexivity.
Qed.

Lemma startKillProcess_searching (m : model) :
  searching (startKillProcess m) = searching m.
Proof.
  unfold startKillProcess.
  destruct (Z.of_nat (length _) =? 0); reflexivity.
Qed.

Lemma Update_modes (W : Widgets) (m : model) (msg : Msg) (m' : model)
    (cmd : Cmd) :
  Update W m msg = Some (m', cmd) ->
  modes_exclusive m -> modes_exclusive m'.
Proof.
  unfold modes_exclusive, Update.
  destruct msg as [key| | | | |count e| | |];
    try (unfold passToTable; destruct (loading m); simpl; update_cases;
         tauto).
  - destruct (searching m) eqn:Hs; [|destruct (confirming m) eqn:Hc].
    + destruct (loading m); simpl; rewrite Hs;
        unfold updateSearching; update_cases; simpl; try tauto;
        intros H H'; specialize (H H'); congruence.
    + destruct (loading m); simpl; rewrite Hs, Hc;
        unfold updateConfirming; update_cases; auto.
    + destruct (loading m); simpl; rewrite Hs, Hc;
        unfold updateNormal, passToTable; update_cases;
        rewrite ?startKillProcess_searching;
        try (destruct (toggleSelection_modes m) as [-> ->]);
        try (destruct
               (toggleSelection_modes
                  (set_spinner (spinner_Update W (KeyMsg key) (spinner m)) m))
               as [-> ->]);
        simpl; auto; congruence.
  - destruct (loading m); destruct e; simpl; update_cases; tauto.
Qed.

Lemma reachable_modes (W : Widgets) (m : model) :
  reachable W m -> modes_exclusive m.
Proof.
  induction 1 as [|m msg m' cmd _ IH HU].
  - intros H. discriminate H.
  - eapply Update_modes; eassumption.
Qed.

Lemma spun_same (W : Widgets) (msg : Msg) (m : model) :
  same_but_spinner m (spun W msg m).
Proof.
  unfold spun, same_but_spinner. destruct (loading m); repeat split.
Qed.

Lemma Update_confirming (W : Widgets) (m : model) (key : string) :
  searching m = false -> confirming m = true ->
  Update W m (KeyMsg key)
  = updateConfirming key (spinnerCmdOf m) (spun W (KeyMsg key) m).
Proof.
  intros Hs Hc. unfold Update, spun, spinnerCmdOf.
  destruct (loading m); simpl; rewrite Hs, Hc; reflexivity.
Qed.

(** C9.  In a model the program can reach, while a kill awaits confirmation,
    a key whose lower-case name is none of [y], [n], [esc] changes nothing
    but the spinner: the selection, the active tab, the ports filter, the
    sort key and direction, the search text, the table and the pending pids
    stay, and the confirmation stays pending.  The keys [y], [n] and [esc]
    end the confirmation and leave the session in the normal state. *)
Theorem C9_confirming_ignores_keys (W : Widgets) (m : model) (key : string) :
  reachable W m -> confirming m = true ->
  (GoLib.ToLower key <> "y"%string ->
   GoLib.ToLower key <> "n"%string ->
   GoLib.ToLower key <> "esc"%string ->
   exists m',
     Update W m (KeyMsg key) = Some (m', spinnerCmdOf m)
     /\ same_but_spinner m m' /\ confirming m' = true)
  /\ (GoLib.ToLower key = "y"%string
      \/ GoLib.ToLower key = "n"%string
      \/ GoLib.ToLower key = "esc"%string ->
      exists m' cmd,
        Update W m (KeyMsg key) = Some (m', cmd)
        /\ confirming m' = false /\ searching m' = false
        /\ selectedPids m' = selectedPids m).
Proof.
  intros Hr Hc. pose proof (reachable_modes W m Hr Hc) as Hs.
  rewrite (Update_confirming W m key Hs Hc).
  pose proof (spun_same W (KeyMsg key) m) as Hsame.
  assert (Hs' : searching (spun W (KeyMsg key) m) = false)
    by (unfold spun; destruct (loading m); exact Hs).
  assert (Hsel : selectedPids (spun W (KeyMsg key) m) = selectedPids m)
    by (unfold spun; destruct (loading m); reflexivity).
  unfold updateConfirming. split.
  - intros Hy Hn He.
    apply String.eqb_neq in Hy, Hn, He. rewrite Hy, Hn, He. simpl.
    eexists. split; [reflexivity|]. split; [exact Hsame|].
    unfold spun. destruct (loading m); exact Hc.
  - intros [H|[H|H]]; rewrite H; simpl; eexists _, _;
      (split; [reflexivity|]); simpl; auto.
Qed.

(** The session reaches the confirmation of killing pid 200. *)
Lemma reachable_m_confirming : reachable Ex.still Ex.m_confirming.
Proof.
  eapply (reach_step Ex.still Ex.m_scanned (KeyMsg "k")).
  - eapply (reach_step Ex.still initialModel (scanMsg Ex.snapshot)).
    + apply reach_init.
    + vm_compute. reflexivity.
  - vm_compute. reflexivity.
Defined.

(** While the kill of pid 200 awaits confirmation the space key changes
    nothing and [Y] ends the confirmation. *)
Lemma C9_confirming_ignores_keys_witness :
  pendingPids Ex.m_confirming = [200]
  /\ (exists m',
        Update Ex.still Ex.m_confirming (KeyMsg " ") = Some (m', [])
        /\ same_but_spinner Ex.m_confirming m' /\ confirming m' = true)
  /\ (exists m' cmd,
        Update Ex.still Ex.m_confirming (KeyMsg "Y") = Some (m', cmd)
        /\ confirming m' = false /\ searching m' = false
        /\ selectedPids m' = selectedPids Ex.m_confirming).
Proof.
  split; [reflexivity|]. split.
  - apply (C9_confirming_ignores_keys Ex.still Ex.m_confirming " "
             reachable_m_confirming eq_refl); discriminate.
  - apply (C9_confirming_ignores_keys Ex.still Ex.m_confirming "Y"
             reachable_m_confirming eq_refl).
    left. reflexivity.
Defined.

(** C3, as the claim has it, fails: a termination result that carries an
    error leaves the selection as it is. *)
Lemma C3_counterexample :
  ~ (forall (W : Widgets) (m : model) (count : Z) (e : option error)
            (m' : model) (cmd : Cmd),
       Update W m (killResultMsg count e) = Some (m', cmd) ->
       selectedPids m' = ∅).
Proof.
  intros H.
  specialize (H Ex.still Ex.m_selected 1
                (Some "operation not permitted"%string) _ _ eq_refl).
  apply (f_equal (fun s : gset Z => bool_decide (100 ∈ s))) in H.
  vm_compute in H. discriminate H.
Qed.

(** C3, amended.  On [y] while a kill awaits confirmation the session posts
    ["Killing N process(s)..."] for its N pending pids at once, hands the
    kill of these pids to the runtime and is back in the normal state.  A
    termination result without error posts ["Successfully killed N
    process(s)"] for its count N and empties the selection; a result with an
    error posts ["Error: "] followed by the error and keeps the selection. *)
Theorem C3_kill_confirmation (W : Widgets) (m : model) :
  (forall key,
     reachable W m -> confirming m = true ->
     GoLib.ToLower key = "y"%string ->
     exists m',
       Update W m (KeyMsg key)
       = Some (m', Batch [[killCmd (pendingPids m)]; waitNotificationCmd;
                          spinnerCmdOf m])
       /\ notification m'
          = String.append "Killing "
              (String.append
                 (GoLib.fmt_d (Z.of_nat (length (pendingPids m))))
                 " process(s)...")
       /\ confirming m' = false /\ searching m' = false)
  /\ (forall count,
        exists m' cmd,
          Update W m (killResultMsg count None) = Some (m', cmd)
          /\ notification m'
             = String.append "Successfully killed "
                 (String.append (GoLib.fmt_d count) " process(s)")
          /\ selectedPids m' = ∅)
  /\ (forall count e,
        exists m' cmd,
          Update W m (killResultMsg count (Some e)) = Some (m', cmd)
          /\ notification m' = String.append "Error: " e
          /\ selectedPids m' = selectedPids m).
Proof.
  split; [|split].
  - intros key Hr Hc Hy.
    pose proof (reachable_modes W m Hr Hc) as Hs.
    rewrite (Update_confirming W m key Hs Hc).
    unfold updateConfirming, killPending. rewrite Hy. simpl.
    unfold spun. destruct (loading m); simpl;
      (eexists; split; [reflexivity|]); auto.
  - intros count. unfold Update.
    destruct (loading m); simpl; eexists _, _;
      (split; [reflexivity|]); split; reflexivity.
  - intros count e. unfold Update.
    destruct (loading m); simpl; eexists _, _;
      (split; [reflexivity|]); split; reflexivity.
Qed.

(** Confirming the kill of pid 200. *)
Lemma C3_kill_confirmation_witness :
  exists m',
    Update Ex.still Ex.m_confirming (KeyMsg "y")
    = Some (m', [killCmd [200]; waitNotification])
    /\ notification m' = "Killing 1 process(s)..."%string
    /\ confirming m' = false /\ searching m' = false.
Proof.
  destruct (C3_kill_confirmation Ex.still Ex.m_confirming) as [H _].
  exact (H "y"%string reachable_m_confirming eq_refl eq_refl).
Defined.

(** * Rows are always produced on a wide enough ports column *)

Lemma formatBytesLoop_exp (fuel k : nat) (n div : N) (exp : Z) :
  (n < unit ^ N.of_nat (S k))%N ->
  exp <= snd (formatBytesLoop fuel n div exp) <= exp + Z.of_nat k.
Proof.
  revert k n div exp.
  induction fuel as [|fuel IH]; intros k n div exp Hn; simpl; [lia|].
  destruct (N.leb_spec unit n) as [Hle|Hlt]; simpl; [|lia].
  destruct k as [|k].
  - change (unit ^ N.of_nat 1)%N with unit in Hn. lia.
  - assert (Hdiv : (n / unit < unit ^ N.of_nat (S k))%N).
    { apply N.Div0.div_lt_upper_bound.
      replace (N.of_nat (S (S k))) with (N.succ (N.of_nat (S k))) in Hn
        by lia.
      rewrite N.pow_succ_r' in Hn. exact Hn. }
    specialize (IH k (n / unit)%N (div * unit)%N (exp + 1) Hdiv). lia.
Qed.

Lemma formatBytes_total (W : Widgets) (b : N) :
  (b < 2 ^ 64)%N -> is_Some (formatBytes W b).
Proof.
  intros Hb. unfold formatBytes.
  destruct (b <? unit)%N; [eexists; reflexivity|].
  assert (Hn : (b / unit < unit ^ N.of_nat 6)%N).
  { apply N.Div0.div_lt_upper_bound.
    change (unit * unit ^ N.of_nat 6)%N with (2 ^ 70)%N.
    eapply N.lt_trans; [exact Hb|]. reflexivity. }
  pose proof (formatBytesLoop_exp (N.size_nat (b / unit)) 5 (b / unit)
                unit 0 Hn) as He.
  destruct (formatBytesLoop _ _ _ _) as [div exp]. simpl in He.
  assert (Hcases : exp = 0 \/ exp = 1 \/ exp = 2 \/ exp = 3 \/ exp = 4
                   \/ exp = 5) by lia.
  destruct Hcases as [-> | [-> | [-> | [-> | [-> | ->]]]]];
    eexists; reflexivity.
Qed.

Lemma formatRow_total (W : Widgets) (m : model) (p : ProcessInfo) :
  3 <= portsWidthOf (table m) -> (MemoryUsage p < 2 ^ 64)%N ->
  is_Some (formatRow W m p).
Proof.
  intros Hw Hb. unfold formatRow.
  destruct (portsCell_wide _ (portsStrOf p) Hw) as [s ->].
  destruct (formatBytes_total W _ Hb) as [mem ->].
  eexists. reflexivity.
Qed.

Lemma filtered_processes (m : model) (p : ProcessInfo) :
  p ∈ filtered m -> p ∈ processes m.
Proof.
  unfold filtered. rewrite sort_Slice_Permutation, filterLoop_filter.
  rewrite !list_elem_of_In, !filter_In. tauto.
Qed.

Lemma updateTable_total (W : Widgets) (m : model) :
  3 <= portsWidthOf (table m) ->
  Forall (fun p => (MemoryUsage p < 2 ^ 64)%N) (processes m) ->
  is_Some (updateTable W m).
Proof.
  intros Hw Hmem.
  assert (H : is_Some (mapM (formatRow W m) (filtered m))).
  { apply mapM_is_Some, Forall_forall. intros p Hp.
    apply formatRow_total; [exact Hw|].
    rewrite Forall_forall in Hmem. apply Hmem, filtered_processes, Hp. }
  destruct H as [rows Hrows].
  destruct (updateTable_Some W m rows Hrows) as (t & -> & _).
  eexists. reflexivity.
Qed.

(** * The selection under a change of view *)

Lemma viewKey_frame (W : Widgets) (key : string) (m : model) :
  let m1 := viewKey key (spun W (KeyMsg key) m) in
  selectedPids m1 = selectedPids m
  /\ processes m1 = processes m
  /\ table m1 = table m.
Proof.
  unfold viewKey, spun.
  destruct (loading m); destruct (String.eqb key "f");
    destruct (String.eqb key "s"); repeat split.
Qed.

Lemma filtered_set_table (t : table.Model) (m : model) :
  filtered (set_table t m) = filtered m.
Proof.
  unfold filtered. rewrite !filterLoop_filter. reflexivity.
Qed.

(** C4.  In the normal state the keys [s], [o] and [f] leave the selection
    set as it is, whether or not the change hides a selected pid; the rows
    then on display are those of the records the new view keeps, each
    marked ["x"] exactly when its pid is in that selection.  On a ports
    column at least 3 wide the keys always go through. *)
Theorem C4_selection_survives (W : Widgets) (m : model) (key : string) :
  searching m = false -> confirming m = false ->
  key = "s"%string \/ key = "o"%string \/ key = "f"%string ->
  (forall m' cmd,
     Update W m (KeyMsg key) = Some (m', cmd) ->
     selectedPids m' = selectedPids m
     /\ Forall2
          (fun p row =>
             table.cell_pid row = GoLib.fmt_d (PID p)
             /\ table.cell_check row
                = (if bool_decide (PID p ∈ selectedPids m) then "x"
                   else " ")%string)
          (filtered m') (table.rows (table m')))
  /\ (3 <= portsWidthOf (table m) ->
      Forall (fun p => (MemoryUsage p < 2 ^ 64)%N) (processes m) ->
      is_Some (Update W m (KeyMsg key))).
Proof.
  intros Hs Hc Hk.
  assert (Hk' : key = "f"%string \/ key = "s"%string \/ key = "o"%string)
    by tauto.
  rewrite (Update_viewKey W m key Hs Hc Hk').
  destruct (viewKey_frame W key m) as (Hsel & Hprocs & Htab).
  set (m1 := viewKey key (spun W (KeyMsg key) m)) in *.
  split.
  - intros m' cmd HU.
    destruct (updateTable W m1) as [m2|] eqn:E; simpl in HU;
      [|discriminate].
    pose proof (updateTable_rows W m1 m2 E) as Hrows.
    apply updateTable_frame in E as (t & -> & _).
    injection HU as <- <-. simpl. split; [exact Hsel|].
    rewrite !filtered_set_table.
    simpl in Hrows. eapply Forall2_impl; [exact Hrows|].
    intros p row Hrow. apply formatRow_cells in Hrow.
    rewrite Hsel in Hrow. exact Hrow.
  - intros Hw Hmem.
    destruct (updateTable_total W m1) as [m2 ->].
    + rewrite Htab. exact Hw.
    + rewrite Hprocs. exact Hmem.
    + simpl. eexists. reflexivity.
Qed.

(** Pid 100 is selected and has no connection: the key [f] hides its row and
    keeps it selected, a second [f] shows the row marked. *)
Lemma C4_selection_survives_witness :
  exists m1 c1 m2 c2,
    Update Ex.still Ex.m_selected (KeyMsg "f") = Some (m1, c1)
    /\ rowPids m1 = ["200"%string]
    /\ selectedPids m1 = selectedPids Ex.m_selected
    /\ Update Ex.still m1 (KeyMsg "f") = Some (m2, c2)
    /\ selectedPids m2 = selectedPids Ex.m_selected
    /\ map (fun row => (table.cell_check row, table.cell_pid row))
           (table.rows (table m2))
       = [(" ", "200"); ("x", "100")]%string.
Proof.
  destruct (C4_selection_survives Ex.still Ex.m_selected "f"
              eq_refl eq_refl (or_intror (or_intror eq_refl))) as [H1 T1].
  destruct T1 as [[m1 c1] HU1].
  { vm_compute. discriminate. }
  { repeat constructor. }
  destruct (H1 m1 c1 HU1) as [Hsel1 _].
  assert (Hm1 : m1 = Ex.after Ex.m_selected (KeyMsg "f")).
  { unfold Ex.after. rewrite HU1. reflexivity. }
  destruct (C4_selection_survives Ex.still m1 "f") as [H2 T2].
  { rewrite Hm1. reflexivity. }
  { rewrite Hm1. reflexivity. }
  { right. right. reflexivity. }
  destruct T2 as [[m2 c2] HU2].
  { rewrite Hm1. vm_compute. discriminate. }
  { rewrite Hm1. repeat constructor. }
  destruct (H2 m2 c2 HU2) as [Hsel2 _].
  assert (Hm2 : m2 = Ex.after m1 (KeyMsg "f")).
  { unfold Ex.after. rewrite HU2. reflexivity. }
  exists m1, c1, m2, c2.
  split; [exact HU1|]. split; [rewrite Hm1; reflexivity|].
  split; [exact Hsel1|]. split; [exact HU2|].
  split; [rewrite Hsel2; exact Hsel1|].
  rewrite Hm2, Hm1. reflexivity.
Defined.

(** * Substrings and decimal numerals *)

























(** * The order of the view *)









(** The insertion sort again, with an order that is one on the elements
    sorted only. *)
Section InsertionSortOn.

Context {A : Type} (cmp : A -> A -> bool) (le : A -> A -> Prop).
Context (dom : A -> Prop).

Hypothesis le_trans :
  forall x y z, dom x -> dom y -> dom z -> le x y -> le y z -> le x z.
Hypothesis cmp_true : forall x y, dom x -> dom y -> cmp x y = true -> le x y.
Hypothesis cmp_false :
  forall x y, dom x -> dom y -> cmp x y = false -> le y x.



End InsertionSortOn.






(** * Further evaluations *)

(** Records with pids 5, 2 (no ports) and 9 (three ports), sorted by port
    count: ascending gives 2, 5, 9 and descending 9, 5, 2. *)
Example ports_sort_example :
  let procs :=
    [ Ex.proc 5 "a" UserProcess [];
      Ex.proc 2 "b" UserProcess [];
      Ex.proc 9 "c" UserProcess
        [Ex.listening 80; Ex.listening 443; Ex.established 51000] ] in
  let m := set_filterPorts false (set_processes procs initialModel) in
  map PID (filtered (set_sortDesc false m)) = [2; 5; 9]
  /\ map PID (filtered m) = [9; 5; 2].
Proof. split; reflexivity. Qed.

(** The rows of the two tied records in the default view. *)
Example ties_descending_rows (W : Widgets) :
  exists m' cmd,
    Update W initialModel (scanMsg [Ex.p2; Ex.p5]) = Some (m', cmd)
    /\ rowPids m' = ["5"; "2"]%string.
Proof.
  eexists _, _. split; [vm_compute; reflexivity|reflexivity].
Qed.

(** Listening ports come first in the ports cell, and a cell too long for
    the default width 15 is cut to twelve bytes and three dots. *)
Example ports_cell_example :
  let p :=
    Ex.proc 7 "srv" UserProcess
      [Ex.established 51000; Ex.listening 80; Ex.listening 8443] in
  portsStrOf p = "80(L), 8443(L), 51000(E)"%string
  /\ portsCell 15 (portsStrOf p) = Some "80(L), 8443(..."%string.
Proof. split; reflexivity. Qed.

(** * More on the snapshot collector *)

Lemma buildConnMap_fold (conns : list gopsutil.ConnectionStat)
    (acc : gmap Z (list Connection)) (pid : Z) :
  default [] (fold_left addConn conns acc !! pid)
  = default [] (acc !! pid) ++ connectionsOf pid conns.
Proof.
  revert acc. induction conns as [|c conns IH]; intros acc; simpl.
  - unfold connectionsOf. simpl. rewrite app_nil_r. reflexivity.
  - rewrite IH. unfold addConn, connectionsOf. simpl.
    destruct (Z.eqb_spec (gopsutil.ConnPid c) pid) as [->|Hne].
    + rewrite lookup_insert_eq. simpl. rewrite <- app_assoc. reflexivity.
    + rewrite lookup_insert_ne by exact Hne. reflexivity.
Qed.

Lemma scanLoop_Forall (currentUser : string)
    (connMap : gmap Z (list Connection)) (P : ProcessInfo -> Prop)
    (procs : list gopsutil.Process) :
  (forall p info, scanOne currentUser connMap p = Some info -> P info) ->
  Forall P (scanLoop currentUser connMap procs).
Proof.
  intros H. induction procs as [|p rest IH]; simpl; [constructor|].
  destruct (scanOne currentUser connMap p) as [info|] eqn:E; [|exact IH].
  constructor; [eapply H; exact E|exact IH].
Qed.

(** X1.  When the connections can be enumerated, every record of the
    snapshot carries the connections enumerated for its pid, all of them
    and in enumeration order, with port and status as enumerated; a process
    without any has the empty list. *)
Theorem snapshot_connections (os : gopsutil.OS)
    (conns : list gopsutil.ConnectionStat) (l : list ProcessInfo) :
  gopsutil.net_Connections os = Ok conns ->
  ScanProcesses os = Ok l ->
  Forall (fun info => Connections info = connectionsOf (PID info) conns) l.
Proof.
  unfold ScanProcesses. intros Hc.
  destruct (gopsutil.user_Current os) as [u|]; [|discriminate].
  destruct (gopsutil.process_Processes os) as [procs|]; [|discriminate].
  intros [= <-]. rewrite Hc. simpl. apply scanLoop_Forall.
  intros p info H. rewrite (scanOne_connections _ _ _ _ H).
  unfold scanOne in H. destruct (gopsutil.Name p); [|discriminate].
  injection H as <-. simpl.
  rewrite buildConnMap_fold, lookup_empty. reflexivity.
Qed.

(** The snapshot of three processes and three connections: the record of
    pid 200 has its two connections in order, the record of pid 1 its one. *)
Lemma snapshot_connections_witness :
  exists l,
    ScanProcesses Ex.os_full = Ok l
    /\ map (fun info => (PID info, map Port (Connections info))) l
       = [(200, [6379%N; 8080%N]); (1, [22%N])]
    /\ Forall (fun info =>
                 Connections info
                 = connectionsOf (PID info)
                     [Ex.conn_redis; Ex.conn_init; Ex.conn_http]) l.
Proof.
  eexists. split; [reflexivity|]. split; [reflexivity|].
  apply (snapshot_connections Ex.os_full); reflexivity.
Defined.

(** X2.  A record of the snapshot is a process of the user exactly when its
    owner is the name of the current user, compared as written; so a
    process whose owner cannot be read is a system process, unless the
    current user is called "unknown". *)
Theorem snapshot_classification (os : gopsutil.OS) (u : string)
    (l : list ProcessInfo) :
  gopsutil.user_Current os = Ok u ->
  ScanProcesses os = Ok l ->
  Forall (fun info => Type_ info = UserProcess <-> User info = u) l
  /\ (forall connMap p info,
        scanOne u connMap p = Some info ->
        failed (gopsutil.Username p) ->
        (Type_ info = UserProcess <-> u = "unknown"%string)).
Proof.
  unfold ScanProcesses. intros Hu. rewrite Hu.
  destruct (gopsutil.process_Processes os) as [procs|]; [|discriminate].
  intros [= <-]. split.
  - apply scanLoop_Forall. intros p info H. unfold scanOne in H.
    destruct (gopsutil.Name p); [|discriminate].
    injection H as <-. simpl.
    destruct (String.eqb_spec
                match gopsutil.Username p with
                | Ok u0 => u0
                | Err _ => "unknown"%string
                end u); split; intros; congruence.
  - intros connMap p info H [e He]. unfold scanOne in H.
    destruct (gopsutil.Name p); [|discriminate].
    injection H as <-. simpl. rewrite He.
    destruct (String.eqb_spec "unknown" u); split; intros; congruence.
Qed.

Lemma snapshot_classification_witness :
  exists l,
    ScanProcesses Ex.os_full = Ok l
    /\ map (fun info => (PID info, User info, Type_ info)) l
       = [(200, "alice"%string, UserProcess);
          (1, "unknown"%string, SystemProcess)]
    /\ Forall (fun info =>
                 Type_ info = UserProcess <-> User info = "alice"%string) l.
Proof.
  eexists. split; [reflexivity|]. split; [reflexivity|].
  apply (snapshot_classification Ex.os_full "alice"); reflexivity.
Defined.

Lemma scanLoop_pids_sublist (currentUser : string)
    (connMap : gmap Z (list Connection)) (procs : list gopsutil.Process) :
  sublist (map PID (scanLoop currentUser connMap procs))
          (map gopsutil.Pid procs).
Proof.
  induction procs as [|p rest IH]; simpl; [constructor|].
  destruct (scanOne currentUser connMap p) as [info|] eqn:E.
  - unfold scanOne in E. destruct (gopsutil.Name p); [|discriminate].
    injection E as <-. simpl. apply sublist_skip. exact IH.
  - apply sublist_cons. exact IH.
Qed.

(** X3.  The pids of the snapshot are pids that were enumerated, in the
    order of the enumeration and no more often than enumerated; when every
    name can be read, they are all of them. *)
Theorem snapshot_pids (os : gopsutil.OS) (procs : list gopsutil.Process)
    (l : list ProcessInfo) :
  gopsutil.process_Processes os = Ok procs ->
  ScanProcesses os = Ok l ->
  sublist (map PID l) (map gopsutil.Pid procs)
  /\ (Forall (fun p => ~ failed (gopsutil.Name p)) procs ->
      map PID l = map gopsutil.Pid procs).
Proof.
  unfold ScanProcesses. intros Hp. rewrite Hp.
  destruct (gopsutil.user_Current os) as [u|]; [|discriminate].
  intros [= <-]. split; [apply scanLoop_pids_sublist|]. clear Hp.
  generalize (buildConnMap (gopsutil.net_Connections os)). intros connMap.
  induction 1 as [|p rest Hname _ IH]; simpl; [reflexivity|].
  destruct (scanOne u connMap p) as [info|] eqn:E.
  - unfold scanOne in E. destruct (gopsutil.Name p); [|discriminate].
    injection E as <-. simpl. rewrite IH. reflexivity.
  - apply scanOne_None in E. contradiction.
Qed.

Lemma snapshot_pids_witness :
  exists l,
    ScanProcesses Ex.os_full = Ok l
    /\ map PID l = [200; 1]
    /\ sublist (map PID l) [200; 300; 1].
Proof.
  eexists. split; [reflexivity|]. split; [reflexivity|].
  apply (snapshot_pids Ex.os_full [Ex.p_ok; Ex.p_gone; Ex.p_denied]);
    reflexivity.
Defined.

(** X4.  Every record of every snapshot is tagged GUI App, Dev Tool or
    Binary: the tag Unknown the code starts from never reaches a record. *)
Theorem snapshot_appType (os : gopsutil.OS) (l : list ProcessInfo) :
  ScanProcesses os = Ok l ->
  Forall (fun info => AppType info ∈ appTypes
                      /\ AppType info <> "Unknown"%string) l.
Proof.
  unfold ScanProcesses.
  destruct (gopsutil.user_Current os) as [u|]; [|discriminate].
  destruct (gopsutil.process_Processes os) as [procs|]; [|discriminate].
  intros [= <-]. apply scanLoop_Forall. intros p info H.
  unfold scanOne in H. destruct (gopsutil.Name p); [|discriminate].
  injection H as <-. simpl. unfold appTypeOf, appTypes.
  destruct (_ || _); [|destruct (_ || _)];
    (split; [set_solver|discriminate]).
Qed.

Lemma snapshot_appType_witness :
  exists l,
    ScanProcesses Ex.os_full = Ok l
    /\ map AppType l = ["Binary"; "Binary"]%string
    /\ Forall (fun info => AppType info ∈ appTypes
                           /\ AppType info <> "Unknown"%string) l.
Proof.
  eexists. split; [reflexivity|]. split; [reflexivity|].
  apply (snapshot_appType Ex.os_full). reflexivity.
Defined.

(** * More on the terminator *)

Lemma successes_bounds (l : list (option error)) :
  0 <= successes l <= Z.of_nat (length l).
Proof.
  induction l as [|[e|] l IH]; simpl length; simpl successes; lia.
Qed.

Lemma successes_all (l : list (option error)) :
  successes l = Z.of_nat (length l) <-> Forall (fun r => r = None) l.
Proof.
  induction l as [|[e|] l IH]; simpl length; simpl successes.
  - split; [constructor|reflexivity].
  - pose proof (successes_bounds l) as Hb. split; [lia|].
    intros H. apply Forall_cons in H as [H _]. discriminate H.
  - rewrite Forall_cons, <- IH. split; [intros; split; [reflexivity|lia]|].
    intros [_ H]. lia.
Qed.

Lemma first_error_None (l : list (option error)) :
  first_error l = None <-> Forall (fun r => r = None) l.
Proof.
  induction l as [|[e|] l IH]; simpl.
  - split; [constructor|reflexivity].
  - split; [discriminate|]. intros H.
    apply Forall_cons in H as [H _]. discriminate H.
  - rewrite Forall_cons, IH. tauto.
Qed.

Lemma last_error_None (l : list (option error)) :
  last_error l = None <-> Forall (fun r => r = None) l.
Proof.
  unfold last_error. rewrite first_error_None.
  rewrite !Forall_forall. split; intros H r Hr; apply H.
  - apply list_elem_of_In, in_rev, list_elem_of_In. rewrite rev_involutive.
    exact Hr.
  - apply list_elem_of_In, in_rev, list_elem_of_In in Hr. exact Hr.
Qed.

(** X5.  The count a kill returns lies between 0 and the number of pids,
    and the result carries no error exactly when the count is the number of
    pids: a success message always speaks of all the pending pids. *)
Theorem kill_all_or_error {S : Type} (K : Killer S) (pids : list Z) (s : S) :
  exists count e,
    fst (runKill K pids s) = killResultMsg count e
    /\ 0 <= count <= Z.of_nat (length pids)
    /\ (e = None <-> count = Z.of_nat (length pids)).
Proof.
  unfold runKill.
  pose proof (killLoop_outcomes K pids 0 None s) as H.
  destruct (killLoop K pids 0 None s) as [[count e] s']. simpl in *.
  injection H as -> ->. eexists _, _. split; [reflexivity|].
  rewrite <- (outcomes_length K pids s), Z.add_0_l.
  split; [apply successes_bounds|].
  rewrite successes_all, <- last_error_None.
  destruct (last_error (outcomes K pids s)); split; congruence.
Qed.

(** * formatBytes *)

Lemma pos_size_nat_gt (p : positive) :
  (N.pos p < 2 ^ N.of_nat (Pos.size_nat p))%N.
Proof.
  induction p as [p IH|p IH|]; simpl Pos.size_nat;
    rewrite ?Nat2N.inj_succ, ?N.pow_succ_r'; lia.
Qed.

Lemma size_nat_gt (n : N) : (n < 2 ^ N.of_nat (N.size_nat n))%N.
Proof.
  destruct n as [|p]; [reflexivity|apply pos_size_nat_gt].
Qed.

(** With fuel for every bit of [n], the loop divides [n] by 1024 until the
    quotient is below 1024, counting the divisions in [exp] and multiplying
    them into [div]. *)
Lemma formatBytesLoop_spec (fuel : nat) (n div : N) (exp : Z) :
  (1 <= n)%N -> (n < 2 ^ N.of_nat fuel)%N ->
  exists k : nat,
    formatBytesLoop fuel n div exp
    = ((div * unit ^ N.of_nat k)%N, exp + Z.of_nat k)
    /\ (unit ^ N.of_nat k <= n < unit ^ N.of_nat (Datatypes.S k))%N.
Proof.
  revert n div exp.
  induction fuel as [|fuel IH]; intros n div exp Hn Hfuel.
  - simpl in Hfuel. lia.
  - simpl formatBytesLoop.
    destruct (N.leb_spec unit n) as [Hle|Hlt].
    + assert (Hq : (1 <= n / unit)%N).
      { apply N.div_le_lower_bound; [discriminate|]. unfold unit in *. lia. }
      assert (Hf : (n / unit < 2 ^ N.of_nat fuel)%N).
      { rewrite Nat2N.inj_succ, N.pow_succ_r' in Hfuel.
        apply N.Div0.div_lt_upper_bound. unfold unit. lia. }
      destruct (IH (n / unit)%N (div * unit)%N (exp + 1) Hq Hf)
        as (k & Hk & Hlo & Hhi).
      exists (Datatypes.S k). rewrite Hk. split.
      * f_equal; [|lia]. rewrite Nat2N.inj_succ, N.pow_succ_r'. lia.
      * rewrite !Nat2N.inj_succ, !N.pow_succ_r' in *.
        pose proof (N.Div0.mul_div_le n unit) as H1.
        pose proof (N.mul_succ_div_gt n unit ltac:(discriminate)) as H2.
        split; [|nia]. nia.
    + exists 0%nat. split.
      * f_equal; [|lia]. simpl. lia.
      * change (unit ^ N.of_nat 0)%N with 1%N.
        change (unit ^ N.of_nat 1)%N with unit. lia.
Qed.

(** X6.  [formatBytes] prints a size below 1024 in bytes.  A larger size of
    64 bits is printed in the largest unit 1024^(k+1), k from 0 to 5, that
    does not exceed it, as the quotient to one decimal followed by the k-th
    letter of KMGTPE and B; the index into the letters is always in range. *)
Theorem formatBytes_unit (W : Widgets) (b : N) :
  ((b < 1024)%N ->
   formatBytes W b = Some (String.append (GoLib.fmt_u b) " B"))
  /\ ((1024 <= b)%N -> (b < 2 ^ 64)%N ->
      exists (k : nat) (c : ascii),
        (k <= 5)%nat
        /\ (1024 ^ N.of_nat (Datatypes.S k) <= b
            < 1024 ^ N.of_nat (Datatypes.S (Datatypes.S k)))%N
        /\ String.get k "KMGTPE" = Some c
        /\ formatBytes W b
           = Some (String.append
                     (fmt_f1 W
                        (PrimFloat.div (float_of_N b)
                           (float_of_N (1024 ^ N.of_nat (Datatypes.S k)))))
                     (String " " (String c "B")))).
Proof.
  unfold formatBytes. split.
  - intros Hb. apply N.ltb_lt in Hb. unfold unit. rewrite Hb. reflexivity.
  - intros Hlo Hhi.
    destruct (N.ltb_spec b unit) as [Hlt|_]; [unfold unit in Hlt; lia|].
    assert (Hq : (1 <= b / unit)%N).
    { apply N.div_le_lower_bound; [discriminate|]. unfold unit. lia. }
    destruct (formatBytesLoop_spec (N.size_nat (b / unit)) (b / unit) unit 0
                Hq (size_nat_gt _)) as (k & Hk & Hklo & Hkhi).
    rewrite Hk. clear Hk.
    assert (Hb : (1024 ^ N.of_nat (Datatypes.S k) <= b
                  < 1024 ^ N.of_nat (Datatypes.S (Datatypes.S k)))%N).
    { unfold unit in *. rewrite !Nat2N.inj_succ, !N.pow_succ_r' in *.
      pose proof (N.Div0.mul_div_le b 1024) as H1.
      pose proof (N.mul_succ_div_gt b 1024 ltac:(discriminate)) as H2.
      split; nia. }
    assert (Hk5 : (k <= 5)%nat).
    { destruct (Nat.le_gt_cases k 5) as [|Hgt]; [assumption|exfalso].
      assert (H7 : (1024 ^ 7 <= 1024 ^ N.of_nat (Datatypes.S k))%N)
        by (apply N.pow_le_mono_r; lia).
      change (1024 ^ 7)%N with (2 ^ 70)%N in H7.
      assert (2 ^ 64 < 2 ^ 70)%N by reflexivity. lia. }
    assert (Hdiv : (unit * unit ^ N.of_nat k
                    = 1024 ^ N.of_nat (Datatypes.S k))%N).
    { unfold unit. rewrite Nat2N.inj_succ, N.pow_succ_r'. reflexivity. }
    rewrite Hdiv. replace (Z.to_nat (0 + Z.of_nat k)) with k by lia.
    exists k.
    do 6 (destruct k as [|k]; [eexists; repeat split; try lia;
                               try apply Hb; reflexivity|]).
    lia.
Qed.

(** 3 MiB is printed in M, and a size of 64 bits never makes the index
    leave the letters. *)
Lemma formatBytes_unit_witness :
  formatBytes Ex.still 512 = Some "512 B"%string
  /\ exists (k : nat) (c : ascii),
       (k <= 5)%nat
       /\ (1024 ^ N.of_nat (Datatypes.S k) <= 3145728
           < 1024 ^ N.of_nat (Datatypes.S (Datatypes.S k)))%N
       /\ String.get k "KMGTPE" = Some c
       /\ formatBytes Ex.still 3145728
          = Some (String.append
                    (fmt_f1 Ex.still
                       (PrimFloat.div (float_of_N 3145728)
                          (float_of_N (1024 ^ N.of_nat (Datatypes.S k)))))
                    (String " " (String c "B"))).
Proof.
  destruct (formatBytes_unit Ex.still 512) as [H _].
  destruct (formatBytes_unit Ex.still 3145728) as [_ H'].
  split; [apply H; reflexivity|apply H'; [discriminate|reflexivity]].
Defined.

(** * The ports cell and the rows *)

Lemma portLabels_spec (conns : list Connection)
    (listenPorts otherPorts : list string) :
  portLabels conns listenPorts otherPorts
  = (listenPorts ++ map portLabel (List.filter isListen conns),
     otherPorts
     ++ map portLabel (List.filter (fun c => negb (isListen c)) conns)).
Proof.
  revert listenPorts otherPorts.
  induction conns as [|c conns IH]; intros ls os.
  - simpl. rewrite !app_nil_r. reflexivity.
  - cbn [portLabels List.filter].
    change (String.eqb (Status c) "LISTEN") with (isListen c).
    assert (HL : portLabel c
                 = String.append (GoLib.fmt_u (Port c))
                     (if isListen c then "(L)" else "(E)")) by reflexivity.
    destruct (isListen c) eqn:E; cbn [negb map]; rewrite IH, <- app_assoc;
      cbn [app]; rewrite HL; reflexivity.
Qed.

(** X7.  The ports of a record are listed with the listening ones first and
    the others after, each group in the order of the connections, each port
    in decimal followed by (L) or (E), separated by a comma and a space. *)
Theorem portsStrOf_listening_first (p : ProcessInfo) :
  portsStrOf p
  = GoLib.Join
      (map portLabel
         (List.filter isListen (Connections p)
          ++ List.filter (fun c => negb (isListen c)) (Connections p)))
      ", ".
Proof.
  unfold portsStrOf. rewrite portLabels_spec. simpl.
  rewrite map_app. reflexivity.
Qed.

Lemma string_length_append (a b : string) :
  String.length (String.append a b) = (String.length a + String.length b)%nat.
Proof.
  induction a as [|c a IH]; simpl; [reflexivity|]. rewrite IH. reflexivity.
Qed.

Lemma string_length_substring (n : nat) (s : string) :
  (n <= String.length s)%nat ->
  String.length (String.substring 0 n s) = n.
Proof.
  revert s. induction n as [|n IH]; intros s H.
  - destruct s; reflexivity.
  - destruct s as [|c s]; simpl in *; [lia|]. rewrite IH; lia.
Qed.

(** X8.  On a ports column at least 3 wide the ports cell always fits:
    a string no longer than the column is shown whole, a longer one is cut
    to the width, three dots included. *)
Theorem portsCell_fits (w : Z) (s : string) :
  3 <= w ->
  exists cell,
    portsCell w s = Some cell
    /\ GoLib.len cell <= w
    /\ (GoLib.len s <= w -> cell = s)
    /\ (w < GoLib.len s ->
        GoLib.len cell = w
        /\ cell = String.append (String.substring 0 (Z.to_nat (w - 3)) s)
                                "...").
Proof.
  intros Hw. unfold portsCell, GoLib.slice_to.
  destruct (Z.ltb_spec w (GoLib.len s)) as [Hlt|Hge].
  - destruct (Z.ltb_spec (w - 3) 0) as [|_]; [lia|].
    destruct (Z.ltb_spec (GoLib.len s) (w - 3)) as [|_]; [lia|].
    simpl. eexists. split; [reflexivity|].
    assert (Hlen : GoLib.len
                     (String.append
                        (String.substring 0 (Z.to_nat (w - 3)) s) "...")
                   = w).
    { unfold GoLib.len in *. rewrite string_length_append.
      rewrite string_length_substring by lia. simpl. lia. }
    split; [lia|]. split; [lia|]. intros _. split; [exact Hlen|reflexivity].
  - eexists. split; [reflexivity|]. split; [lia|].
    split; [reflexivity|lia].
Qed.

Lemma portsCell_fits_witness :
  exists cell,
    portsCell 15 (portsStrOf Ex.p7) = Some cell
    /\ GoLib.len cell <= 15
    /\ cell = "80(L), 8443(..."%string.
Proof.
  destruct (portsCell_fits 15 (portsStrOf Ex.p7)) as (cell & H & Hlen & _ & Hc).
  - discriminate.
  - exists cell. split; [exact H|]. split; [exact Hlen|].
    apply Hc. reflexivity.
Defined.

(** * toggleSelection *)

Lemma Sscanf_fmt_d (z : Z) : GoLib.Sscanf_d (GoLib.fmt_d z) = z.
Proof.
  unfold GoLib.Sscanf_d, GoLib.fmt_d.
  rewrite NilEmpty.isi. apply DecimalZ.of_to.
Qed.

Lemma set_selectedPids_same (m : model) :
  set_selectedPids (selectedPids m) m = m.
Proof. destruct m. reflexivity. Qed.

(** X9.  On the rows [updateTable] wrote, [toggleSelection] reads the pid
    of the record under the cursor back from its cell without loss: it
    takes this pid out of the selection if it is in, puts it in otherwise,
    and leaves every other pid as it is. *)
Theorem toggleSelection_cursor (W : Widgets) (m m' : model) (i : nat)
    (p : ProcessInfo) :
  updateTable W m = Some m' ->
  filtered m !! i = Some p ->
  table.cursor (table m') = Z.of_nat i ->
  selectedPids (toggleSelection m')
  = (if bool_decide (PID p ∈ selectedPids m)
     then selectedPids m ∖ {[ PID p ]}
     else selectedPids m ∪ {[ PID p ]}).
Proof.
  intros HU Hp Hcur.
  pose proof (updateTable_rows W m m' HU) as Hrows.
  destruct (Forall2_lookup_l _ _ _ _ _ Hrows Hp) as (row & Hrow & Hfmt).
  apply formatRow_cells in Hfmt as [Hpid _].
  apply updateTable_frame in HU as (t & -> & _). simpl in *.
  unfold toggleSelection, table.SelectedRow. simpl. rewrite Hcur.
  pose proof (lookup_lt_Some _ _ _ Hrow) as Hlt.
  destruct (Z.ltb_spec (Z.of_nat i) 0) as [|_]; [lia|].
  destruct (Z.leb_spec (Z.of_nat (length (table.rows t))) (Z.of_nat i))
    as [|_]; [lia|].
  simpl. rewrite Nat2Z.id, Hrow, Hpid, Sscanf_fmt_d.
  destruct (bool_decide (PID p ∈ selectedPids m)); reflexivity.
Qed.

Lemma gset_remove_add (s : gset Z) (x : Z) :
  x ∈ s -> s ∖ {[ x ]} ∪ {[ x ]} = s.
Proof.
  intros Hx. apply set_eq. intros y.
  rewrite elem_of_union, elem_of_difference, elem_of_singleton.
  destruct (decide (y = x)) as [->|]; tauto.
Qed.

Lemma gset_add_remove (s : gset Z) (x : Z) :
  x ∉ s -> (s ∪ {[ x ]}) ∖ {[ x ]} = s.
Proof.
  intros Hx. apply set_eq. intros y.
  rewrite elem_of_difference, elem_of_union, elem_of_singleton.
  destruct (decide (y = x)) as [->|]; tauto.
Qed.

(** X10.  Toggling twice without moving the cursor gives the model back;
    with the cursor on no row a toggle does nothing. *)
Theorem toggleSelection_twice (m : model) :
  toggleSelection (toggleSelection m) = m
  /\ (table.SelectedRow (table m) = None -> toggleSelection m = m).
Proof.
  split.
  - unfold toggleSelection at 2.
    destruct (table.SelectedRow (table m)) as [row|] eqn:E.
    + set (x := GoLib.Sscanf_d (table.cell_pid row)).
      destruct (bool_decide_reflect (x ∈ selectedPids m)) as [Hin|Hout].
      * unfold toggleSelection. simpl. rewrite E. fold x.
        rewrite bool_decide_false.
        -- simpl. rewrite (gset_remove_add _ _ Hin). destruct m; reflexivity.
        -- rewrite elem_of_difference, elem_of_singleton. tauto.
      * unfold toggleSelection. simpl. rewrite E. fold x.
        rewrite bool_decide_true.
        -- simpl. rewrite (gset_add_remove _ _ Hout). destruct m; reflexivity.
        -- rewrite elem_of_union, elem_of_singleton. tauto.
    + unfold toggleSelection. rewrite E. reflexivity.
  - intros E. unfold toggleSelection. rewrite E. reflexivity.
Qed.

(** * updateTable run again, and its cursor *)

Lemma formatRow_set_table (W : Widgets) (t : table.Model) (m : model)
    (p : ProcessInfo) :
  table.cols t = table.cols (table m) ->
  formatRow W (set_table t m) p = formatRow W m p.
Proof.
  intros H. unfold formatRow, portsWidthOf, table.Columns. simpl.
  rewrite H. reflexivity.
Qed.

Lemma mapM_formatRow_set_table (W : Widgets) (t : table.Model) (m : model)
    (l : list ProcessInfo) :
  table.cols t = table.cols (table m) ->
  mapM (formatRow W (set_table t m)) l = mapM (formatRow W m) l.
Proof.
  intros H. induction l as [|p l IH]; [reflexivity|].
  cbn [mapM]. rewrite IH, (formatRow_set_table W t m p H). reflexivity.
Qed.

Lemma SetRows_same (t : table.Model) : table.SetRows (table.rows t) t = t.
Proof. destruct t. reflexivity. Qed.

(** X11.  Deriving the view again from the same snapshot and parameters
    changes nothing: [updateTable] applied to its own result returns it. *)
Theorem updateTable_idempotent (W : Widgets) (m m' : model) :
  updateTable W m = Some m' -> updateTable W m' = Some m'.
Proof.
  unfold updateTable at 1.
  destruct (mapM (formatRow W m) (filtered m)) as [rows|] eqn:E; simpl;
    [|discriminate].
  intros [= <-]. unfold updateTable.
  set (t := if Z.of_nat (length rows) <=? table.Cursor (table m)
            then table.SetCursor (Z.of_nat (length rows) - 1)
                   (table.SetRows rows (table m))
            else table.SetRows rows (table m)).
  assert (Hcols : table.cols t = table.cols (table m))
    by (unfold t; destruct (_ <=? _); reflexivity).
  assert (Hrows : table.rows t = rows)
    by (unfold t; destruct (_ <=? _); reflexivity).
  rewrite filtered_set_table, (mapM_formatRow_set_table W t m _ Hcols), E.
  assert (Hsr : table.SetRows rows t = t)
    by (rewrite <- Hrows; apply SetRows_same).
  simpl. rewrite Hsr.
  assert (Hcur : (Z.of_nat (length rows) <=? table.Cursor t) = false).
  { unfold t, table.Cursor.
    destruct (Z.leb_spec (Z.of_nat (length rows)) (table.cursor (table m)));
      simpl; unfold table.clamp; lia. }
  rewrite Hcur. destruct m; reflexivity.
Qed.

Lemma updateTable_idempotent_witness :
  updateTable Ex.still Ex.m_scanned = Some Ex.m_scanned.
Proof.
  apply (updateTable_idempotent Ex.still
           (set_loading false (set_processes Ex.snapshot initialModel))).
  reflexivity.
Defined.

(** X12.  After [updateTable] the cursor is never past the last row; if it
    was not negative before, it is on a row whenever there is one, and on
    none only when there are no rows. *)
Theorem updateTable_cursor (W : Widgets) (m m' : model) :
  updateTable W m = Some m' ->
  table.cursor (table m') < Z.of_nat (length (table.rows (table m')))
  /\ (0 <= table.cursor (table m) ->
      (table.SelectedRow (table m') = None
       <-> table.rows (table m') = [])).
Proof.
  unfold updateTable.
  destruct (mapM (formatRow W m) (filtered m)) as [rows|]; simpl;
    [|discriminate].
  intros [= <-]. simpl. unfold table.SelectedRow, table.Cursor.
  destruct (Z.leb_spec (Z.of_nat (length rows)) (table.cursor (table m)))
    as [Hle|Hlt]; simpl; unfold table.clamp.
  - split; [lia|]. intros Hpos.
    destruct rows as [|r rows]; simpl length.
    + split; reflexivity.
    + replace (Z.min (Z.max (Z.of_nat (Datatypes.S (length rows)) - 1) 0)
                 (Z.of_nat (Datatypes.S (length rows)) - 1))
        with (Z.of_nat (length rows)) by lia.
      destruct (Z.ltb_spec (Z.of_nat (length rows)) 0) as [|_]; [lia|].
      destruct (Z.leb_spec (Z.of_nat (Datatypes.S (length rows)))
                  (Z.of_nat (length rows))) as [|_]; [lia|].
      simpl. rewrite Nat2Z.id.
      destruct (lookup_lt_is_Some_2 (r :: rows) (length rows)) as [x Hx];
        [simpl; lia|].
      rewrite Hx. split; discriminate.
  - split; [lia|]. intros Hpos.
    destruct (Z.ltb_spec (table.cursor (table m)) 0) as [|_]; [lia|].
    destruct (Z.leb_spec (Z.of_nat (length rows)) (table.cursor (table m)))
      as [|_]; [lia|].
    simpl.
    destruct (lookup_lt_is_Some_2 rows (Z.to_nat (table.cursor (table m))))
      as [x Hx]; [lia|].
    rewrite Hx. split; [discriminate|]. intros ->. simpl in Hlt. lia.
Qed.

Lemma updateTable_cursor_witness :
  table.SelectedRow (table Ex.m_scanned) <> None
  /\ table.cursor (table Ex.m_scanned) < 1.
Proof.
  destruct (updateTable_cursor Ex.still
              (set_loading false (set_processes Ex.snapshot initialModel))
              Ex.m_scanned eq_refl) as [Hlt H].
  split; [|exact Hlt].
  intros Hnone. apply H in Hnone; [discriminate Hnone|discriminate].
Defined.

(** * The rows and the filters *)

Lemma filter_filter_andb {A : Type} (f g : A -> bool) (l : list A) :
  List.filter f (List.filter g l) = List.filter (fun x => g x && f x) l.
Proof.
  induction l as [|x l IH]; simpl; [reflexivity|].
  destruct (g x); simpl; [destruct (f x)|]; rewrite IH; reflexivity.
Qed.

Lemma filtered_Permutation (m : model) :
  Permutation (filtered m) (List.filter (kept m) (processes m)).
Proof.
  unfold filtered. rewrite sort_Slice_Permutation, filterLoop_filter.
  rewrite !filter_filter_andb.
  erewrite List.filter_ext; [reflexivity|].
  intros p. unfold kept. rewrite andb_assoc. reflexivity.
Qed.

(** X13.  The rows show the records that are in the active group, pass the
    ports filter and pass the search, each once for each time it is in the
    snapshot, and nothing else: sorting neither drops nor repeats a row. *)
Theorem rows_are_kept_records (W : Widgets) (m m' : model) :
  updateTable W m = Some m' ->
  Permutation (rowPids m')
    (map (fun p => GoLib.fmt_d (PID p))
       (List.filter (kept m) (processes m))).
Proof.
  intros H. rewrite (updateTable_rowPids W m m' H).
  apply Permutation_map, filtered_Permutation.
Qed.

Lemma rows_are_kept_records_witness :
  Permutation (rowPids Ex.m_scanned) ["200"%string].
Proof.
  apply (rows_are_kept_records Ex.still
           (set_loading false (set_processes Ex.snapshot initialModel))
           Ex.m_scanned).
  reflexivity.
Defined.

Lemma filtered_no_connections (m : model) :
  filterPorts m = true ->
  Forall (fun p => Connections p = []) (processes m) ->
  filtered m = [].
Proof.
  intros Hf Hall.
  apply Permutation_nil. symmetry. rewrite filtered_Permutation.
  induction Hall as [|p ps Hp _ IH]; simpl; [reflexivity|].
  unfold kept at 1, passesPortsFilter. rewrite Hf, Hp. simpl.
  rewrite andb_false_r. exact IH.
Qed.

(** X14.  A snapshot taken while the connections could not be enumerated
    shows no row at all as long as the ports filter is on, and its arrival
    never makes [Update] panic. *)
Theorem no_connections_no_rows (W : Widgets) (os : gopsutil.OS)
    (l : list ProcessInfo) (m : model) :
  failed (gopsutil.net_Connections os) ->
  ScanProcesses os = Ok l ->
  filterPorts m = true ->
  exists m' cmd,
    Update W m (scanMsg l) = Some (m', cmd)
    /\ table.rows (table m') = []
    /\ processes m' = l.
Proof.
  intros [e He] Hscan Hf.
  assert (Hall : Forall (fun p => Connections p = []) l).
  { unfold ScanProcesses in Hscan.
    destruct (gopsutil.user_Current os) as [u|]; [|discriminate].
    destruct (gopsutil.process_Processes os) as [procs|]; [|discriminate].
    injection Hscan as <-. rewrite He. apply scanLoop_no_connections. }
  unfold Update.
  set (m1 := set_loading false
               (set_processes l
                  (if loading m
                   then set_spinner
                          (spinner_Update W (scanMsg l) (spinner m)) m
                   else m))).
  assert (Hm1 : filtered m1 = []).
  { apply filtered_no_connections.
    - unfold m1. destruct (loading m); exact Hf.
    - unfold m1. destruct (loading m); exact Hall. }
  destruct (updateTable_Some W m1 []) as (t & -> & Hr & _).
  { rewrite Hm1. reflexivity. }
  simpl. eexists _, _. split; [reflexivity|]. simpl.
  split; [exact Hr|]. unfold m1. destruct (loading m); reflexivity.
Qed.

Lemma no_connections_no_rows_witness :
  exists l m' cmd,
    ScanProcesses Ex.os_no_net = Ok l
    /\ length l = 2%nat
    /\ Update Ex.still initialModel (scanMsg l) = Some (m', cmd)
    /\ table.rows (table m') = [].
Proof.
  destruct (no_connections_no_rows Ex.still Ex.os_no_net
              (scanLoop "alice" ∅ [Ex.p_ok; Ex.p_gone; Ex.p_denied])
              initialModel) as (m' & cmd & HU & Hr & _).
  - exists "permission denied"%string. reflexivity.
  - reflexivity.
  - reflexivity.
  - eexists _, m', cmd. split; [reflexivity|]. split; [reflexivity|].
    split; [exact HU|exact Hr].
Defined.

(** * The sorts by pid and by memory *)

Lemma less_sortKey (m : model) (p q : ProcessInfo) :
  sortBy m = SortPID \/ sortBy m = SortMem ->
  less m p q
  = (if sortDesc m then negb (sortKeyOf m p <? sortKeyOf m q)
     else sortKeyOf m p <? sortKeyOf m q).
Proof.
  intros [H|H]; unfold less, sortKeyOf; rewrite H; simpl; [reflexivity|].
  assert (E : (MemoryUsage p <? MemoryUsage q)%N
              = (Z.of_N (MemoryUsage p) <? Z.of_N (MemoryUsage q))).
  { destruct (N.ltb_spec (MemoryUsage p) (MemoryUsage q));
      destruct (Z.ltb_spec (Z.of_N (MemoryUsage p))
                  (Z.of_N (MemoryUsage q))); lia. }
  rewrite E. reflexivity.
Qed.

(** X15.  Sorted by pid or by memory, the records kept come out in
    non-decreasing order of that field, and in non-increasing order when
    the direction is descending. *)
Theorem filtered_sorted_by_key (m : model) :
  sortBy m = SortPID \/ sortBy m = SortMem ->
  StronglySorted
    (fun p q =>
       if sortDesc m then sortKeyOf m q <= sortKeyOf m p
       else sortKeyOf m p <= sortKeyOf m q)
    (filtered m).
Proof.
  intros Hby. unfold filtered. apply sort_Slice_sorted.
  - intros x y z. destruct (sortDesc m); lia.
  - intros x y. rewrite (less_sortKey m x y Hby).
    destruct (sortDesc m);
      destruct (Z.ltb_spec (sortKeyOf m x) (sortKeyOf m y));
      simpl; intros; try discriminate; lia.
  - intros x y. rewrite (less_sortKey m x y Hby).
    destruct (sortDesc m);
      destruct (Z.ltb_spec (sortKeyOf m x) (sortKeyOf m y));
      simpl; intros; try discriminate; lia.
Qed.

Lemma filtered_sorted_by_key_witness :
  map PID (filtered (set_sortBy SortPID
                       (set_processes [Ex.p200; Ex.p5; Ex.p2] initialModel)))
  = [200; 5; 2]
  /\ StronglySorted (fun p q => PID q <= PID p)
       (filtered (set_sortBy SortPID
                    (set_processes [Ex.p200; Ex.p5; Ex.p2] initialModel))).
Proof.
  split; [reflexivity|].
  exact (filtered_sorted_by_key
           (set_sortBy SortPID
              (set_processes [Ex.p200; Ex.p5; Ex.p2] initialModel))
           (or_introl eq_refl)).
Defined.

(** * More on the state machine *)

Lemma startKillProcess_cases (m : model) :
  startKillProcess m = set_notification "No process selected." m
  \/ exists victims,
       victims <> []
       /\ startKillProcess m = set_confirming true (set_pendingPids victims m).
Proof.
  unfold startKillProcess.
  match goal with
  | |- context [Z.of_nat (length ?v) =? 0] => set (victims := v)
  end.
  destruct (Z.eqb_spec (Z.of_nat (length victims)) 0) as [|Hne];
    [left; reflexivity|right].
  exists victims. split; [|reflexivity].
  intros E. rewrite E in Hne. apply Hne. reflexivity.
Qed.

Lemma toggleSelection_cases (m : model) :
  exists s, toggleSelection m = set_selectedPids s m.
Proof.
  unfold toggleSelection.
  destruct (table.SelectedRow (table m)).
  - destruct (bool_decide _); eexists; reflexivity.
  - exists (selectedPids m). symmetry. apply set_selectedPids_same.
Qed.

(** One call of [Update] taken apart, branch by branch, with the helpers
    that write the model replaced by what they wrote. *)
Ltac update_branches :=
  repeat
    match goal with
    | |- context [if ?b then _ else _] =>
        let E := fresh "E" in destruct b eqn:E; simpl
    | |- context [updateTable ?W ?m] =>
        let E := fresh "E" in
        destruct (updateTable W m) as [?|] eqn:E; simpl;
        [apply updateTable_frame in E as (? & -> & _)|]
    | |- Some _ = Some _ -> _ => intros [= <- <-]; simpl
    | |- None = Some _ -> _ => discriminate
    end.

Ltac update_all m :=
  unfold Update, updateSearching, updateConfirming, updateNormal,
    passToTable;
  destruct (loading m) eqn:?Hload; simpl; update_branches;
  repeat
    match goal with
    | |- context [startKillProcess ?x] =>
        destruct (startKillProcess_cases x) as [-> | (? & ? & ->)]
    | |- context [toggleSelection ?x] =>
        destruct (toggleSelection_cases x) as [? ->]
    end;
  simpl.

(** X16.  Only an [errMsg] writes the error of the model, and nothing ever
    clears it: once a scan has failed, the error stays through every later
    message, a later successful scan included. *)
Theorem err_is_sticky (W : Widgets) (m : model) (msg : Msg) (m' : model)
    (cmd : Cmd) :
  Update W m msg = Some (m', cmd) ->
  err m' = match msg with
           | errMsg e => Some e
           | _ => err m
           end.
Proof.
  destruct msg as [key| | | | |count e| | |]; try destruct e;
    update_all m; try reflexivity; discriminate.
Qed.

Lemma err_is_sticky_witness :
  let m1 :=
    Ex.after initialModel (errMsg "failed to list processes: EPERM"%string) in
  let m2 := Ex.after m1 (scanMsg Ex.snapshot) in
  rowPids m2 = ["200"%string]
  /\ err m2 = Some "failed to list processes: EPERM"%string.
Proof.
  intros m1 m2. split; [reflexivity|].
  assert (E : exists c, Update Ex.still m1 (scanMsg Ex.snapshot)
                        = Some (m2, c))
    by (eexists; vm_compute; reflexivity).
  destruct E as [c E].
  rewrite (err_is_sticky Ex.still m1 (scanMsg Ex.snapshot) m2 c E).
  reflexivity.
Defined.

Lemma rem_two (a : Z) :
  a = 0 \/ a = 1 -> Z.rem (a + 1) 2 = 0 \/ Z.rem (a + 1) 2 = 1.
Proof. intros [->| ->]; [right|left]; reflexivity. Qed.

Lemma rem_five (s : Z) : 0 <= s <= 4 -> 0 <= Z.rem (s + 1) 5 <= 4.
Proof.
  intros H. pose proof (Z.rem_bound_pos (s + 1) 5 ltac:(lia) ltac:(lia)).
  lia.
Qed.

Lemma Update_well_formed (W : Widgets) (m : model) (msg : Msg) (m' : model)
    (cmd : Cmd) :
  Update W m msg = Some (m', cmd) -> well_formed m -> well_formed m'.
Proof.
  intros HU (Htab & Hsort & Hconf). revert HU. unfold well_formed.
  destruct msg as [key| | | | |count e| | |]; try destruct e;
    update_all m;
    (split; [auto using rem_two|]);
    (split; [auto using rem_five|]);
    intros Hc; try discriminate Hc;
    try (first [ destruct (Hconf Hc) as [Hx Hy]
               | destruct (Hconf eq_refl) as [Hx Hy] ]);
    try discriminate; split; first [congruence|assumption].
Qed.

(** X17.  In every model the program reaches the active tab is 0 or 1, the
    sort key is one of the five, and while a kill awaits confirmation the
    search box is closed and there is at least one pending pid. *)
Theorem reachable_well_formed (W : Widgets) (m : model) :
  reachable W m -> well_formed m.
Proof.
  induction 1 as [|m msg m' cmd _ IH HU].
  - unfold well_formed. simpl. split; [left; reflexivity|].
    split; [unfold SortPorts; lia|discriminate].
  - eapply Update_well_formed; eassumption.
Qed.

Lemma reachable_well_formed_witness :
  well_formed Ex.m_confirming /\ pendingPids Ex.m_confirming = [200].
Proof.
  split; [|reflexivity].
  apply (reachable_well_formed Ex.still). apply reachable_m_confirming.
Defined.

(** X18.  [Update] hands a kill to the runtime on one occasion only: the
    key [y], in either case, while a kill awaits confirmation and the search
    box is closed; the pids are then the pending ones.  No other key, state
    or message ever kills. *)
Theorem kill_needs_confirmation (W : Widgets) (m : model) (msg : Msg)
    (m' : model) (cmd : Cmd) (pids : list Z) :
  Update W m msg = Some (m', cmd) ->
  In (killCmd pids) cmd ->
  exists key,
    msg = KeyMsg key
    /\ GoLib.ToLower key = "y"%string
    /\ searching m = false /\ confirming m = true
    /\ pids = pendingPids m.
Proof.
  destruct msg as [key| | | | |count e| | |]; try destruct e;
    update_all m;
    cbv [Batch scanProcessesCmd tickCmd waitNotificationCmd killPending
         List.concat app In];
    intros Hin;
    repeat match goal with
           | H : _ \/ _ |- _ => destruct H as [H|H]
           end;
    try discriminate; try contradiction;
    injection Hin as <-; exists key;
    match goal with
    | H : String.eqb (GoLib.ToLower key) "y" = true |- _ =>
        apply String.eqb_eq in H
    end;
    repeat split; auto.
Qed.

Lemma kill_needs_confirmation_witness :
  exists key,
    KeyMsg "y" = KeyMsg key
    /\ GoLib.ToLower key = "y"%string
    /\ searching Ex.m_confirming = false
    /\ confirming Ex.m_confirming = true
    /\ [200] = pendingPids Ex.m_confirming.
Proof.
  apply (kill_needs_confirmation Ex.still Ex.m_confirming (KeyMsg "y")
           (Ex.after Ex.m_confirming (KeyMsg "y"))
           [killCmd [200]; waitNotification] [200]).
  - vm_compute. reflexivity.
  - left. reflexivity.
Defined.

(** X19.  [Update] asks the runtime to quit on one occasion only: the key
    [q] or [ctrl+c] in the normal state.  Typed into the search box or
    pressed while a kill awaits confirmation, these keys do not quit. *)
Theorem quit_only_in_normal (W : Widgets) (m : model) (msg : Msg)
    (m' : model) (cmd : Cmd) :
  Update W m msg = Some (m', cmd) ->
  In Quit cmd ->
  exists key,
    msg = KeyMsg key
    /\ (key = "q"%string \/ key = "ctrl+c"%string)
    /\ searching m = false /\ confirming m = false.
Proof.
  destruct msg as [key| | | | |count e| | |]; try destruct e;
    update_all m;
    cbv [Batch scanProcessesCmd tickCmd waitNotificationCmd killPending
         List.concat app In];
    intros Hin;
    repeat match goal with
           | H : _ \/ _ |- _ => destruct H as [H|H]
           end;
    try discriminate; try contradiction;
    exists key;
    match goal with
    | H : String.eqb key "q" || String.eqb key "ctrl+c" = true |- _ =>
        apply orb_true_iff in H;
        rewrite !String.eqb_eq in H
    end;
    repeat split; auto.
Qed.

Lemma quit_only_in_normal_witness :
  exists key,
    KeyMsg "q" = KeyMsg key
    /\ (key = "q"%string \/ key = "ctrl+c"%string)
    /\ searching Ex.m_scanned = false /\ confirming Ex.m_scanned = false.
Proof.
  apply (quit_only_in_normal Ex.still Ex.m_scanned (KeyMsg "q")
           Ex.m_scanned [Quit]).
  - vm_compute. reflexivity.
  - left. reflexivity.
Defined.

(** X20.  A snapshot that arrives replaces the processes of the model
    wholesale and ends the loading; it leaves the selection, the view
    parameters, the search text and the modes as they are, also for
    selected pids that are no longer in the snapshot; and the rows are
    derived anew from the new processes. *)
Theorem refresh_keeps_view (W : Widgets) (m : model)
    (procs : list ProcessInfo) (m' : model) (cmd : Cmd) :
  Update W m (scanMsg procs) = Some (m', cmd) ->
  processes m' = procs /\ loading m' = false
  /\ same_view m m'
  /\ searching m' = searching m /\ textInput m' = textInput m
  /\ rowPids m' = map (fun p => GoLib.fmt_d (PID p)) (filtered m').
Proof.
  unfold Update, passToTable.
  set (m1 := set_loading false
               (set_processes procs
                  (if loading m
                   then set_spinner
                          (spinner_Update W (scanMsg procs) (spinner m)) m
                   else m))).
  destruct (updateTable W m1) as [m2|] eqn:E; simpl; [|discriminate].
  pose proof (updateTable_rowPids W m1 m2 E) as Hrows.
  apply updateTable_frame in E as (t & -> & _).
  intros [= <- <-]. simpl. rewrite !filtered_set_table.
  unfold rowPids in *. simpl in *. rewrite Hrows.
  unfold same_view, m1. destruct (loading m); simpl; repeat split.
Qed.

Lemma refresh_keeps_view_witness :
  exists m' cmd,
    Update Ex.still Ex.m_selected (scanMsg [Ex.p200]) = Some (m', cmd)
    /\ processes m' = [Ex.p200]
    /\ selectedPids m' = selectedPids Ex.m_selected
    /\ bool_decide (100 ∈ selectedPids m') = true.
Proof.
  assert (E : exists cmd,
             Update Ex.still Ex.m_selected (scanMsg [Ex.p200])
             = Some (Ex.after Ex.m_selected (scanMsg [Ex.p200]), cmd))
    by (eexists; vm_compute; reflexivity).
  destruct E as [cmd E].
  destruct (refresh_keeps_view Ex.still Ex.m_selected [Ex.p200] _ cmd E)
    as (Hp & _ & (Hsel & _) & _).
  eexists _, cmd. split; [exact E|]. split; [exact Hp|].
  split; [exact Hsel|]. rewrite Hsel. reflexivity.
Defined.

(** X21.  While the search box is open every key goes to the box: no key
    quits, kills, selects or changes the view parameters.  [enter] and [esc]
    close the box and keep its text and the rows; any other key is handed
    to the text input and the rows are derived anew. *)
Theorem searching_routes_keys (W : Widgets) (m : model) (key : string)
    (m' : model) (cmd : Cmd) :
  searching m = true ->
  Update W m (KeyMsg key) = Some (m', cmd) ->
  same_view m m' /\ processes m' = processes m /\ ~ In Quit cmd
  /\ (key = "enter"%string \/ key = "esc"%string ->
      searching m' = false /\ textInput m'
                              = textinput.SetFocus false (textInput m)
      /\ table.rows (table m') = table.rows (table m))
  /\ (key <> "enter"%string -> key <> "esc"%string ->
      searching m' = true
      /\ textInput m' = textinput_Update W (KeyMsg key) (textInput m)
      /\ rowPids m' = map (fun p => GoLib.fmt_d (PID p)) (filtered m')).
Proof.
  intros Hs. unfold Update.
  assert (Hs' : searching
                  (if loading m
                   then set_spinner
                          (spinner_Update W (KeyMsg key) (spinner m)) m
                   else m) = true) by (destruct (loading m); exact Hs).
  rewrite Hs'. clear Hs'. unfold updateSearching.
  destruct (String.eqb_spec key "enter") as [->|Hne1];
    [|destruct (String.eqb_spec key "esc") as [->|Hne2]]; simpl.
  - intros [= <- <-]. unfold same_view.
    destruct (loading m); simpl;
      (split; [repeat split|]); (split; [reflexivity|]);
      (split; [intuition discriminate|]);
      (split; [intros _; repeat split|intros H; congruence]).
  - intros [= <- <-]. unfold same_view.
    destruct (loading m); simpl;
      (split; [repeat split|]); (split; [reflexivity|]);
      (split; [intuition discriminate|]);
      (split; [intros _; repeat split|intros _ H; congruence]).
  - match goal with
    | |- context [updateTable W ?x] => set (m1 := x)
    end.
    destruct (updateTable W m1) as [m2|] eqn:E; simpl; [|discriminate].
    pose proof (updateTable_rowPids W m1 m2 E) as Hrows.
    apply updateTable_frame in E as (t & -> & _).
    intros [= <- <-]. simpl. rewrite !filtered_set_table.
    unfold same_view, m1 in *.
    destruct (loading m); simpl in *;
      (split; [repeat split|]); (split; [reflexivity|]);
      (split; [intuition discriminate|]);
      (split; [intros [H|H]; congruence|]);
      intros _ _; repeat split; auto.
Qed.

Lemma searching_routes_keys_witness :
  let m := set_searching true Ex.m_selected in
  exists m' cmd,
    Update Ex.still m (KeyMsg "q") = Some (m', cmd)
    /\ ~ In Quit cmd /\ searching m' = true
    /\ selectedPids m' = selectedPids m.
Proof.
  intros m.
  assert (E : exists cmd,
             Update Ex.still m (KeyMsg "q")
             = Some (Ex.after m (KeyMsg "q"), cmd))
    by (eexists; vm_compute; reflexivity).
  destruct E as [cmd E].
  destruct (searching_routes_keys Ex.still m "q" _ cmd eq_refl E)
    as ((Hsel & _) & _ & Hq & _ & H).
  destruct H as (Hs & _); [discriminate|discriminate|].
  eexists _, cmd. split; [exact E|]. split; [exact Hq|].
  split; [exact Hs|exact Hsel].
Defined.

Lemma Update_key_k (W : Widgets) (m : model) :
  searching m = false -> confirming m = false ->
  Update W m (KeyMsg "k")
  = passToTable W (KeyMsg "k") (spinnerCmdOf m)
      (startKillProcess (spun W (KeyMsg "k") m)).
Proof.
  intros Hs Hc. unfold Update. cbv zeta.
  fold (spun W (KeyMsg "k") m). fold (spinnerCmdOf m).
  assert (Hs' : searching (spun W (KeyMsg "k") m) = false)
    by (unfold spun; destruct (loading m); exact Hs).
  assert (Hc' : confirming (spun W (KeyMsg "k") m) = false)
    by (unfold spun; destruct (loading m); exact Hc).
  rewrite Hs', Hc'. reflexivity.
Qed.

Lemma startKillProcess_targets (m : model) :
  confirming m = false ->
  selectedPids (startKillProcess m) = selectedPids m
  /\ table (startKillProcess m) = table m
  /\ (selectedPids m <> ∅ ->
      confirming (startKillProcess m) = true
      /\ NoDup (pendingPids (startKillProcess m))
      /\ forall pid, pid ∈ pendingPids (startKillProcess m)
                     <-> pid ∈ selectedPids m)
  /\ (selectedPids m = ∅ ->
      match table.SelectedRow (table m) with
      | Some row =>
          confirming (startKillProcess m) = true
          /\ pendingPids (startKillProcess m)
             = [GoLib.Sscanf_d (table.cell_pid row)]
      | None =>
          confirming (startKillProcess m) = false
          /\ notification (startKillProcess m)
             = "No process selected."%string
      end).
Proof.
  intros Hc0. unfold startKillProcess.
  destruct (Z.ltb_spec 0 (Z.of_nat (size (selectedPids m)))) as [Hpos|Hz].
  - assert (Hne : selectedPids m <> ∅).
    { intros Hemp. rewrite Hemp, size_empty in Hpos. lia. }
    assert (Hlen : (Z.of_nat (length (elements (selectedPids m))) =? 0)
                   = false).
    { apply Z.eqb_neq.
      change (length (elements (selectedPids m)))
        with (size (selectedPids m)). lia. }
    rewrite Hlen.
    split; [reflexivity|]. split; [reflexivity|]. split.
    + intros _. split; [reflexivity|].
      split; [exact (NoDup_elements (selectedPids m))|].
      intros pid. exact (elem_of_elements (selectedPids m) pid).
    + intros Hemp. contradiction.
  - assert (Hemp : selectedPids m = ∅)
      by (apply leibniz_equiv, size_empty_iff; lia).
    destruct (table.SelectedRow (table m)) as [row|].
    + split; [reflexivity|]. split; [reflexivity|].
      split; [intros H; contradiction|]. intros _. split; reflexivity.
    + split; [reflexivity|]. split; [reflexivity|].
      split; [intros H; contradiction|].
      intros _. split; [exact Hc0|reflexivity].
Qed.

(** X22.  In the normal state the key [k] kills nothing yet.  With pids
    selected it asks to confirm the kill of exactly the selected pids, each
    once; with none selected, of the pid of the row under the cursor; with
    none selected and no row, it posts ["No process selected."] and asks
    nothing.  The selection stays as it is. *)
Theorem kill_key_targets (W : Widgets) (m : model) :
  searching m = false -> confirming m = false ->
  exists m',
    Update W m (KeyMsg "k")
    = Some (m', Batch [[WidgetCmd]; spinnerCmdOf m])
    /\ selectedPids m' = selectedPids m
    /\ (selectedPids m <> ∅ ->
        confirming m' = true /\ NoDup (pendingPids m')
        /\ forall pid, pid ∈ pendingPids m' <-> pid ∈ selectedPids m)
    /\ (selectedPids m = ∅ ->
        match table.SelectedRow (table m) with
        | Some row =>
            confirming m' = true
            /\ pendingPids m' = [GoLib.Sscanf_d (table.cell_pid row)]
        | None =>
            confirming m' = false
            /\ notification m' = "No process selected."%string
        end).
Proof.
  intros Hs Hc. rewrite (Update_key_k W m Hs Hc). unfold passToTable.
  eexists. split; [reflexivity|].
  set (m0 := spun W (KeyMsg "k") m).
  assert (H0 : selectedPids m0 = selectedPids m /\ table m0 = table m
               /\ confirming m0 = false)
    by (unfold m0, spun; destruct (loading m); auto).
  destruct H0 as (Hsel & Htab & Hc0).
  destruct (startKillProcess_targets m0 Hc0) as (H1 & _ & H2 & H3).
  rewrite Hsel, Htab in *.
  change (selectedPids (set_table ?t ?x)) with (selectedPids x).
  split; [exact H1|]. split; [exact H2|exact H3].
Qed.

Lemma kill_key_targets_witness :
  exists m',
    Update Ex.still Ex.m_selected (KeyMsg "k") = Some (m', [WidgetCmd])
    /\ confirming m' = true
    /\ forall pid, pid ∈ pendingPids m' <-> pid ∈ selectedPids Ex.m_selected.
Proof.
  destruct (kill_key_targets Ex.still Ex.m_selected eq_refl eq_refl)
    as (m' & HU & _ & H & _).
  exists m'. split; [exact HU|].
  destruct H as (Hc & _ & Hp); [|split; [exact Hc|exact Hp]].
  intros Hemp.
  apply (f_equal (fun s : gset Z => bool_decide (100 ∈ s))) in Hemp.
  vm_compute in Hemp. discriminate Hemp.
Defined.

(** * The earlier main.go *)

(** X23.  In the earlier main.go a resize gives the name column at least
    the width 20 and the ports column at least 15, whatever the width of the
    window; the cut of the ports cell is then always in range. *)
Theorem main_go_resize_bounds (w : Z) (s : string) :
  exists name ports,
    main_go.resizeColumns w !! 2%nat = Some name
    /\ main_go.resizeColumns w !! 3%nat = Some ports
    /\ 20 <= table.Width name /\ 15 <= table.Width ports
    /\ is_Some (portsCell (table.Width ports) s).
Proof.
  unfold main_go.resizeColumns.
  match goal with
  | |- context [GoLib.int_of_float ?f] => set (n := GoLib.int_of_float f)
  end.
  eexists _, _. split; [reflexivity|]. split; [reflexivity|]. simpl.
  assert (H20 : 20 <= (if n <? 20 then 20 else n))
    by (destruct (Z.ltb_spec n 20); lia).
  split; [exact H20|].
  match goal with
  | |- 15 <= (if ?x <? 15 then 15 else ?x) /\ _ =>
      assert (H15 : 15 <= (if x <? 15 then 15 else x))
        by (destruct (Z.ltb_spec x 15); lia)
  end.
  split; [exact H15|]. apply portsCell_wide. lia.
Qed.

(** Pid 200 is under the cursor after the first snapshot: a toggle selects
    it. *)
Lemma toggleSelection_cursor_witness :
  bool_decide (200 ∈ selectedPids (toggleSelection Ex.m_scanned)) = true.
Proof.
  rewrite (toggleSelection_cursor Ex.still
             (set_loading false (set_processes Ex.snapshot initialModel))
             Ex.m_scanned 0 Ex.p200 eq_refl eq_refl eq_refl).
  vm_compute. reflexivity.
Defined.

(** Two toggles on the row of pid 200, and a toggle on the empty table. *)
Lemma toggleSelection_twice_witness :
  toggleSelection (toggleSelection Ex.m_scanned) = Ex.m_scanned
  /\ toggleSelection initialModel = initialModel.
Proof.
  split.
  - apply (toggleSelection_twice Ex.m_scanned).
  - apply (toggleSelection_twice initialModel). reflexivity.
Defined.

(** * The keys tab and space *)

Lemma Update_key_tab (W : Widgets) (m : model) :
  searching m = false -> confirming m = false ->
  Update W m (KeyMsg "tab")
  = (m1 ← updateTable W
            (set_activeTab (Z.rem (activeTab m + 1) 2)
               (spun W (KeyMsg "tab") m));
     passToTable W (KeyMsg "tab") (spinnerCmdOf m) m1).
Proof.
  intros Hs Hc. unfold Update, spun, spinnerCmdOf.
  destruct (loading m); simpl; rewrite Hs, Hc; reflexivity.
Qed.

(** X24.  In the normal state the key [tab] goes from the tab of the user
    to the tab of the system and back.  Every record is in the group of
    exactly one of the two tabs, so the rows after the key are those of the
    records that were not in the group before; the selection stays. *)
Theorem tab_switches_group (W : Widgets) (m m' : model) (cmd : Cmd) :
  searching m = false -> confirming m = false ->
  activeTab m = 0 \/ activeTab m = 1 ->
  Update W m (KeyMsg "tab") = Some (m', cmd) ->
  activeTab m' = 1 - activeTab m
  /\ selectedPids m' = selectedPids m
  /\ (forall p, inActiveGroup m' p = negb (inActiveGroup m p))
  /\ rowPids m' = map (fun p => GoLib.fmt_d (PID p)) (filtered m').
Proof.
  intros Hs Hc Htab. rewrite (Update_key_tab W m Hs Hc).
  set (m1 := set_activeTab (Z.rem (activeTab m + 1) 2)
               (spun W (KeyMsg "tab") m)).
  destruct (updateTable W m1) as [m2|] eqn:E; simpl; [|discriminate].
  pose proof (updateTable_rowPids W m1 m2 E) as Hrows.
  apply updateTable_frame in E as (t & -> & _).
  unfold passToTable. intros [= <- <-]. rewrite !filtered_set_table.
  assert (Ha : activeTab m1 = 1 - activeTab m).
  { unfold m1, spun. destruct (loading m); simpl;
      destruct Htab as [-> | ->]; reflexivity. }
  assert (Hsel : selectedPids m1 = selectedPids m)
    by (unfold m1, spun; destruct (loading m); reflexivity).
  split; [exact Ha|]. split; [exact Hsel|]. split; [|exact Hrows].
  intros p. unfold inActiveGroup.
  change (activeTab (set_table ?a (set_table ?b m1))) with (activeTab m1).
  rewrite Ha. destruct Htab as [-> | ->]; simpl;
    destruct (Type_ p); reflexivity.
Qed.

Lemma tab_switches_group_witness :
  exists m' cmd,
    Update Ex.still Ex.m_scanned (KeyMsg "tab") = Some (m', cmd)
    /\ activeTab m' = 1 /\ rowPids m' = [].
Proof.
  assert (E : exists cmd,
             Update Ex.still Ex.m_scanned (KeyMsg "tab")
             = Some (Ex.after Ex.m_scanned (KeyMsg "tab"), cmd))
    by (eexists; vm_compute; reflexivity).
  destruct E as [cmd E].
  destruct (tab_switches_group Ex.still Ex.m_scanned _ cmd
              eq_refl eq_refl (or_introl eq_refl) E) as (Ha & _).
  eexists _, cmd. split; [exact E|]. split; [exact Ha|reflexivity].
Defined.

Lemma Update_key_space (W : Widgets) (m : model) :
  searching m = false -> confirming m = false ->
  Update W m (KeyMsg " ")
  = (m1 ← updateTable W (toggleSelection (spun W (KeyMsg " ") m));
     Some (m1, spinnerCmdOf m)).
Proof.
  intros Hs Hc. unfold Update. cbv zeta.
  fold (spun W (KeyMsg " ") m). fold (spinnerCmdOf m).
  assert (Hs' : searching (spun W (KeyMsg " ") m) = false)
    by (unfold spun; destruct (loading m); exact Hs).
  assert (Hc' : confirming (spun W (KeyMsg " ") m) = false)
    by (unfold spun; destruct (loading m); exact Hc).
  rewrite Hs', Hc'. reflexivity.
Qed.

Lemma updateTable_cursor_kept (W : Widgets) (m m' : model) :
  updateTable W m = Some m' ->
  table.cursor (table m) < Z.of_nat (length (table.rows (table m'))) ->
  table.cursor (table m') = table.cursor (table m).
Proof.
  unfold updateTable.
  destruct (mapM (formatRow W m) (filtered m)) as [rows|];
    [|discriminate].
  cbn [mbind option_bind]. intros [= <-].
  cbn [table set_table]. unfold table.Cursor.
  destruct (Z.leb_spec (Z.of_nat (length rows)) (table.cursor (table m)));
    cbn [table.rows table.cursor table.SetRows table.SetCursor]; [lia|].
  reflexivity.
Qed.

Lemma filtered_toggleSelection (W : Widgets) (msg : Msg) (m : model) :
  filtered (toggleSelection (spun W msg m)) = filtered m.
Proof.
  destruct (toggleSelection_cases (spun W msg m)) as [s ->].
  unfold filtered. rewrite !filterLoop_filter.
  unfold spun. destruct (loading m); reflexivity.
Qed.

(** X25.  In the normal state the space key toggles the selection of the
    row under the cursor and derives the rows anew: the rows are those of
    the records kept, in their order, each formatted under the selection as
    toggled and so marked ["x"] exactly when its pid is in it.  The key is
    not handed to the table: the cursor stays where it is, as long as it is
    still on a row. *)
Theorem space_keeps_cursor (W : Widgets) (m m' : model) (cmd : Cmd) :
  searching m = false -> confirming m = false ->
  Update W m (KeyMsg " ") = Some (m', cmd) ->
  cmd = spinnerCmdOf m
  /\ selectedPids m' = selectedPids (toggleSelection m)
  /\ Forall2
       (fun p row =>
          formatRow W m' p = Some row
          /\ table.cell_check row
             = (if bool_decide (PID p ∈ selectedPids (toggleSelection m))
                then "x" else " ")%string)
       (filtered m) (table.rows (table m'))
  /\ (table.cursor (table m)
      < Z.of_nat (length (table.rows (table m'))) ->
      table.cursor (table m') = table.cursor (table m)).
Proof.
  intros Hs Hc. rewrite (Update_key_space W m Hs Hc).
  set (m0 := spun W (KeyMsg " ") m).
  destruct (updateTable W (toggleSelection m0)) as [m2|] eqn:E;
    [|discriminate].
  cbn [mbind option_bind]. intros [= <- <-].
  assert (Htab : table (toggleSelection m0) = table m).
  { destruct (toggleSelection_cases m0) as [s ->].
    unfold m0, spun. destruct (loading m); reflexivity. }
  assert (Hsel : selectedPids (toggleSelection m0)
                 = selectedPids (toggleSelection m)).
  { unfold toggleSelection.
    assert (H0 : table m0 = table m /\ selectedPids m0 = selectedPids m)
      by (unfold m0, spun; destruct (loading m); auto).
    destruct H0 as [-> Hs0].
    destruct (table.SelectedRow (table m)); [|exact Hs0].
    rewrite Hs0. destruct (bool_decide _); reflexivity. }
  split; [reflexivity|].
  pose proof (updateTable_rows W _ _ E) as Hrows.
  pose proof E as E'. apply updateTable_frame in E' as (t & Hm2 & Hcols & _).
  split; [rewrite Hm2; exact Hsel|]. split.
  - unfold m0 in Hrows. rewrite filtered_toggleSelection in Hrows.
    eapply Forall2_impl; [exact Hrows|].
    intros p row Hrow. cbv beta in Hrow. split.
    + rewrite Hm2, (formatRow_set_table W t _ p Hcols). exact Hrow.
    + apply formatRow_cells in Hrow as [_ ->]. fold m0.
      rewrite Hsel. reflexivity.
  - intros Hlt. rewrite <- Htab.
    apply (updateTable_cursor_kept W _ _ E). rewrite Htab. exact Hlt.
Qed.

(** On the row of pid 200 the space key marks the row and leaves the cursor
    on it. *)
Lemma space_keeps_cursor_witness :
  exists m' cmd,
    Update Ex.still Ex.m_scanned (KeyMsg " ") = Some (m', cmd)
    /\ cmd = []
    /\ table.cursor (table m') = 0
    /\ selectedPids m' = selectedPids (toggleSelection Ex.m_scanned)
    /\ Forall2
         (fun p row =>
            formatRow Ex.still m' p = Some row
            /\ table.cell_check row
               = (if bool_decide
                       (PID p ∈ selectedPids (toggleSelection Ex.m_scanned))
                  then "x" else " ")%string)
         (filtered Ex.m_scanned) (table.rows (table m'))
    /\ map table.cell_check (table.rows (table m')) = ["x"%string].
Proof.
  assert (E : exists cmd,
             Update Ex.still Ex.m_scanned (KeyMsg " ")
             = Some (Ex.after Ex.m_scanned (KeyMsg " "), cmd))
    by (eexists; vm_compute; reflexivity).
  destruct E as [cmd E].
  destruct (space_keeps_cursor Ex.still Ex.m_scanned _ cmd
              eq_refl eq_refl E) as (Hcmd & Hsel & Hrows & Hcur).
  eexists _, cmd. split; [exact E|]. split; [exact Hcmd|].
  split; [rewrite Hcur; [reflexivity|]; vm_compute; reflexivity|].
  split; [exact Hsel|]. split; [exact Hrows|].
  vm_compute. reflexivity.
Defined.

Lemma outcomes_app {S : Type} (K : Killer S) (a b : list Z) (count : Z)
    (lastErr : option error) (s : S) :
  outcomes K (a ++ b) s
  = outcomes K a s ++ outcomes K b (snd (killLoop K a count lastErr s)).
Proof.
  revert count lastErr s.
  induction a as [|pid rest IH]; intros count lastErr s; simpl;
    [reflexivity|].
  destruct (KillProcess K pid s) as [[e|] s']; simpl; f_equal; apply IH.
Qed.

(** X26.  A failure does not end a kill: after the pids of a first list,
    whatever became of them, every pid of a second list is attempted, on
    the system the first list left behind. *)
Theorem kill_goes_on {S : Type} (K : Killer S) (a b : list Z) (s : S) :
  outcomes K (a ++ b) s
  = outcomes K a s ++ outcomes K b (snd (runKill K a s))
  /\ length (outcomes K (a ++ b) s) = (length a + length b)%nat.
Proof.
  split.
  - rewrite (outcomes_app K a b 0 None s). unfold runKill.
    destruct (killLoop K a 0 None s) as [[count e] s']. reflexivity.
  - rewrite outcomes_length, length_app. reflexivity.
Qed.
